(** * Ada Local Node: a shallow embedding of [src/main.py]

    The node exposes a JSON-RPC tool server and a bridge that polls a
    dispatch service.  Python values are embedded as [pyval], the global
    [state] dictionary as the record [BridgeState], and every effect
    (clock, HTTP, subprocesses, files, prints, sleeps) is threaded through
    a state-and-exception monad [M] whose state records the history of
    events.  The outside world is an [Env] of oracles that answer from the
    history so far. *)

From Stdlib Require Import String Ascii List ZArith Bool Lia DecimalString.
Import ListNotations.
Local Open Scope string_scope.
Local Open Scope Z_scope.
Set Warnings "-register-all".

(* ================================================================== *)
(** ** Python values *)

(** JSON-shaped Python values ([Any] in the source's type hints).  A
    dictionary keeps its insertion order, as Python's does. *)
Inductive pyval : Type :=
| VNone
| VBool (b : bool)
| VInt (z : Z)
| VStr (s : string)
| VList (l : list pyval)
| VDict (d : list (string * pyval)).

Definition pydict := list (string * pyval).

Fixpoint dict_get (d : pydict) (k : string) : option pyval :=
  match d with
  | [] => None
  | (k', v) :: d' => if String.eqb k' k then Some v else dict_get d' k
  end.

(** [d.get(k, default)] *)
Definition dict_get_default (d : pydict) (k : string) (dflt : pyval) : pyval :=
  match dict_get d k with Some v => v | None => dflt end.

(** Truth value testing ([if v:], [v and ...]). *)
Definition py_truthy (v : pyval) : bool :=
  match v with
  | VNone => false
  | VBool b => b
  | VInt z => negb (z =? 0)
  | VStr s => negb (String.eqb s "")
  | VList l => match l with [] => false | _ => true end
  | VDict d => match d with [] => false | _ => true end
  end.

(* ================================================================== *)
(** ** Strings *)

Fixpoint starts_with (p s : string) : bool :=
  match p, s with
  | EmptyString, _ => true
  | String _ _, EmptyString => false
  | String a p', String b s' => Ascii.eqb a b && starts_with p' s'
  end.

(** [needle in hay] on two [str]s. *)
Fixpoint str_contains (needle hay : string) : bool :=
  starts_with needle hay ||
  match hay with
  | EmptyString => false
  | String _ hay' => str_contains needle hay'
  end.

(** [s.split(sep)] for a non-empty [sep]: [skip] counts the characters
    of a matched separator that are still to be dropped, [cur] is the
    segment read so far. *)
Fixpoint split_go (sep s : string) (skip : nat) (cur : string) : list string :=
  match s with
  | EmptyString => [cur]
  | String c s' =>
      match skip with
      | S k => split_go sep s' k cur
      | O =>
          if starts_with sep s
          then cur :: split_go sep s' (Nat.pred (String.length sep)) ""
          else split_go sep s' O (cur ++ String c "")
      end
  end.

Definition str_split (sep s : string) : list string := split_go sep s O "".

(** A [string] holds the UTF-8 encoding of a Python [str]: a character
    is one leading byte followed by its continuation bytes, which are the
    bytes of the form [10xxxxxx]. *)
Definition is_continuation (c : ascii) : bool :=
  match c with
  | Ascii _ _ _ _ _ _ b6 b7 => b7 && negb b6
  end.

(** [len(s)]: the number of characters. *)
Fixpoint char_length (s : string) : nat :=
  match s with
  | EmptyString => O
  | String c s' =>
      if is_continuation c then char_length s' else S (char_length s')
  end.

(** [s[:n]]: the first [n] characters, each with all its bytes. *)
Fixpoint str_take (n : nat) (s : string) : string :=
  match s with
  | EmptyString => ""
  | String c s' =>
      if is_continuation c then String c (str_take n s')
      else match n with
           | O => ""
           | S n' => String c (str_take n' s')
           end
  end.

(** The characters of [s], one string each: [cur] is the character
    being read. *)
Fixpoint chars_go (s cur : string) : list string :=
  match s with
  | EmptyString => if String.eqb cur "" then [] else [cur]
  | String c s' =>
      if is_continuation c then chars_go s' (cur ++ String c "")
      else if String.eqb cur "" then chars_go s' (String c "")
      else cur :: chars_go s' (String c "")
  end.

Definition str_chars (s : string) : list string := chars_go s "".

Definition str_of_Z (z : Z) : string := NilZero.string_of_int (Z.to_int z).

(** [str(v)] as used by f-strings.  The text of a list or dictionary is
    the interpreter's [repr], taken as a parameter. *)
Definition py_str (repr : pyval -> string) (v : pyval) : string :=
  match v with
  | VNone => "None"
  | VBool true => "True"
  | VBool false => "False"
  | VInt z => str_of_Z z
  | VStr s => s
  | VList _ | VDict _ => repr v
  end.

(* ================================================================== *)
(** ** Exceptions and outcomes *)

(** The exception classes that occur; all derive from [Exception]. *)
Inductive exn_class : Type :=
| TypeError
| AttributeError
| ValidationError
| JSONDecodeError
| TimeoutExpired
| OSError
| TransportError
| PlainException
| HTTPException (status : Z).

Record exn : Type := mkExn { exn_cls : exn_class; exn_msg : string }.

Inductive outcome (A : Type) : Type :=
| Return (a : A)
| Raise (e : exn).
Arguments Return {A} a.
Arguments Raise {A} e.

Definition is_timeout (e : exn) : bool :=
  match exn_cls e with TimeoutExpired => true | _ => false end.

(* ================================================================== *)
(** ** The outside world *)

Inductive http_verb : Type := GET | POST.

Inductive http_body : Type :=
| NoBody
| Form (d : pydict)
| Json (v : pyval).

(** [rq_bearer = Some t] stands for the header
    [Authorization: Bearer {t}]. *)
Record http_request : Type := mkRequest {
  rq_verb : http_verb;
  rq_url : string;
  rq_bearer : option pyval;
  rq_body : http_body
}.

(** [resp_json] is what [resp.json()] does: it raises on a body that is
    not JSON. *)
Record http_response : Type := mkResponse {
  status_code : Z;
  resp_location : option string;
  resp_text : string;
  resp_json : outcome pyval
}.

Record proc_result : Type := mkProc {
  stdout : string;
  stderr : string;
  returncode : Z
}.

Inductive event : Type :=
| EvNow
| EvHttp (rq : http_request)
| EvRun (argv : list string)
| EvShell (command : pyval)
| EvRead (path : pyval)
| EvWrite (path content : pyval)
| EvListdir (path : pyval)
| EvSleep (secs : Z)
| EvPrint (msg : string).

(** Module-level configuration, read from the process environment. *)
Record Config : Type := mkConfig {
  NODE_ID : string;
  RAILWAY_URL : string;
  AUTH_URL : string;
  SCENT : string;
  POLL_INTERVAL : Z;
  N8N_URL : string
}.

Definition default_config : Config :=
  {| NODE_ID := "wsl-local";
     RAILWAY_URL := "https://rest.msgraph.de";
     AUTH_URL := "https://auth2.msgraph.de";
     SCENT := "awaken";
     POLL_INTERVAL := 5;
     N8N_URL := "http://localhost:5678" |}.

(** Every collaborator answers from the history of events so far, so an
    answer may change from one call to the next.  The clock counts
    microseconds. *)
Record Env : Type := mkEnv {
  cfg : Config;
  env_now : list event -> Z;
  env_http : list event -> http_request -> outcome http_response;
  env_run : list event -> list string -> outcome proc_result;
  env_shell : list event -> pyval -> outcome proc_result;
  env_read : list event -> pyval -> outcome string;
  env_write : list event -> pyval -> pyval -> outcome unit;
  env_listdir : list event -> pyval -> outcome (list string);
  strftime : Z -> string;
  isoformat : Z -> string;
  py_repr : pyval -> string;
  json_dumps : pyval -> string
}.

(* ================================================================== *)
(** ** State *)

(** The module-level [state] dictionary. *)
Record BridgeState : Type := mkState {
  token : pyval;
  token_expiry : option Z;
  registered : bool;
  jobs_processed : Z;
  last_sync : option string;
  bridge_active : bool
}.

Definition initial_state : BridgeState :=
  {| token := VNone; token_expiry := None; registered := false;
     jobs_processed := 0; last_sync := None; bridge_active := false |}.

Record Sys : Type := mkSys { st : BridgeState; hist : list event }.

Definition M (A : Type) : Type := Sys -> outcome A * Sys.

Definition ret {A} (a : A) : M A := fun s => (Return a, s).

Definition bind {A B} (c : M A) (k : A -> M B) : M B :=
  fun s =>
    match c s with
    | (Return a, s') => k a s'
    | (Raise e, s') => (Raise e, s')
    end.

Declare Scope monad_scope.
Delimit Scope monad_scope with monad.
Notation "x <- c1 ;; c2" := (bind c1 (fun x => c2))
  (at level 61, c1 at next level, right associativity) : monad_scope.
Notation "c1 ;; c2" := (bind c1 (fun _ => c2))
  (at level 61, right associativity) : monad_scope.
Local Open Scope monad_scope.

Definition raise {A} (e : exn) : M A := fun s => (Raise e, s).

Definition lift {A} (o : outcome A) : M A := fun s => (o, s).

(** [try: body  except Exception as e: handler e]; the state reached
    when the exception was raised is kept. *)
Definition try_except {A} (body : M A) (handler : exn -> M A) : M A :=
  fun s =>
    match body s with
    | (Return a, s') => (Return a, s')
    | (Raise e, s') => handler e s'
    end.

Definition get_state : M BridgeState := fun s => (Return (st s), s).

Definition modify (f : BridgeState -> BridgeState) : M unit :=
  fun s => (Return tt, {| st := f (st s); hist := hist s |}).

Definition emit (e : event) : M unit :=
  fun s => (Return tt, {| st := st s; hist := hist s ++ [e] |}).

Definition set_token (v : pyval) (b : BridgeState) : BridgeState :=
  {| token := v; token_expiry := token_expiry b; registered := registered b;
     jobs_processed := jobs_processed b; last_sync := last_sync b;
     bridge_active := bridge_active b |}.

Definition set_token_expiry (t : Z) (b : BridgeState) : BridgeState :=
  {| token := token b; token_expiry := Some t; registered := registered b;
     jobs_processed := jobs_processed b; last_sync := last_sync b;
     bridge_active := bridge_active b |}.

Definition set_registered (b : BridgeState) : BridgeState :=
  {| token := token b; token_expiry := token_expiry b; registered := true;
     jobs_processed := jobs_processed b; last_sync := last_sync b;
     bridge_active := bridge_active b |}.

Definition incr_jobs_processed (b : BridgeState) : BridgeState :=
  {| token := token b; token_expiry := token_expiry b;
     registered := registered b;
     jobs_processed := jobs_processed b + 1; last_sync := last_sync b;
     bridge_active := bridge_active b |}.

Definition set_last_sync (t : string) (b : BridgeState) : BridgeState :=
  {| token := token b; token_expiry := token_expiry b;
     registered := registered b;
     jobs_processed := jobs_processed b; last_sync := Some t;
     bridge_active := bridge_active b |}.

(* ================================================================== *)
(** ** Calling a handler with [**kwargs] *)

(** A handler's parameters, each with its default when it has one. *)
Definition signature := list (string * option pyval).

Definition has_param (sig : signature) (k : string) : bool :=
  existsb (fun p => String.eqb (fst p) k) sig.

Definition unexpected_keyword (sig : signature) (kw : pydict) : option string :=
  option_map fst (find (fun p => negb (has_param sig (fst p))) kw).

Definition missing_params (sig : signature) (kw : pydict) : list string :=
  map fst
    (filter (fun p => match snd p, dict_get kw (fst p) with
                      | None, None => true
                      | _, _ => false
                      end) sig).

Definition quoted (s : string) : string := "'" ++ s ++ "'".

Fixpoint join_names (names : list string) : string :=
  match names with
  | [] => ""
  | [a] => quoted a
  | [a; b] => quoted a ++ " and " ++ quoted b
  | a :: rest =>
      quoted a ++ ", " ++
      match rest with
      | [b; c] => quoted b ++ ", and " ++ quoted c
      | _ => join_names rest
      end
  end.

Definition missing_message (fname : string) (names : list string) : string :=
  fname ++ "() missing " ++ str_of_Z (Z.of_nat (List.length names)) ++
  " required positional argument" ++
  (match names with [_] => "" | _ => "s" end) ++ ": " ++ join_names names.

(** What the interpreter checks before the body of [fn], called with
    the keyword arguments [kw], runs. *)
Definition check_kwargs (fname : string) (sig : signature) (kw : pydict)
  : outcome unit :=
  match unexpected_keyword sig kw with
  | Some k =>
      Raise (mkExn TypeError
               (fname ++ "() got an unexpected keyword argument " ++ quoted k))
  | None =>
      match missing_params sig kw with
      | [] => Return tt
      | names => Raise (mkExn TypeError (missing_message fname names))
      end
  end.

Definition py_type_name (v : pyval) : string :=
  match v with
  | VNone => "NoneType"
  | VBool _ => "bool"
  | VInt _ => "int"
  | VStr _ => "str"
  | VList _ => "list"
  | VDict _ => "dict"
  end.

(** [d in c] for a string [d] and an arbitrary value [c]. *)
Definition py_in_str (d : string) (c : pyval) : outcome bool :=
  match c with
  | VStr s => Return (str_contains d s)
  | VList l =>
      Return (existsb (fun x => match x with
                                | VStr s => String.eqb s d
                                | _ => false
                                end) l)
  | VDict kv => Return (existsb (fun p => String.eqb (fst p) d) kv)
  | _ =>
      Raise (mkExn TypeError
               ("argument of type " ++ quoted (py_type_name c) ++
                " is not iterable"))
  end.

(** [any(d in c for d in ds)], left to right, stopping at the first hit. *)
Fixpoint any_in (ds : list string) (c : pyval) : outcome bool :=
  match ds with
  | [] => Return false
  | d :: ds' =>
      match py_in_str d c with
      | Return true => Return true
      | Return false => any_in ds' c
      | Raise e => Raise e
      end
  end.

Definition dangerous : list string :=
  ["rm -rf"; "dd if="; "mkfs"; "> /dev/"; "chmod 777"].

Definition error_dict (msg : string) : pyval := VDict [("error", VStr msg)].

(** A value of [resp.json()] that the code iterates with [for]. *)
Definition py_iter (v : pyval) : outcome (list pyval) :=
  match v with
  | VList l => Return l
  | VDict d => Return (map (fun p => VStr (fst p)) d)
  | VStr s => Return (map VStr (str_chars s))
  | _ =>
      Raise (mkExn TypeError
               (quoted (py_type_name v) ++ " object is not iterable"))
  end.

(** [v.get(k)] on a value that should be a dictionary. *)
Definition py_get (v : pyval) (k : string) : outcome pyval :=
  match v with
  | VDict d => Return (dict_get_default d k VNone)
  | _ =>
      Raise (mkExn AttributeError
               (quoted (py_type_name v) ++
                " object has no attribute 'get'"))
  end.

(* ================================================================== *)
(** ** Models *)

Record MCPRequest : Type := mkMCPRequest {
  req_jsonrpc : string;
  req_id : option Z;
  req_method : string;
  req_params : option pydict
}.

Record MCPResponse : Type := mkMCPResponse {
  res_jsonrpc : string;
  res_id : option Z;
  res_result : option pyval;
  res_error : option pydict
}.

Record ToolCall : Type := mkToolCall {
  call_tool : string;
  call_args : pydict
}.

Record HiveJob : Type := mkHiveJob {
  job_id : string;
  tool : string;
  args : pydict;
  callback_url : option string
}.

(** [HiveJob] built from the keywords of [job], one element of the
    pending list: the validation done by the model class, taken as
    strict (a field of the wrong type is rejected, an unknown key is
    ignored). *)
Definition HiveJob_of (v : pyval) : outcome HiveJob :=
  match v with
  | VDict d =>
      match dict_get d "job_id", dict_get d "tool", dict_get d "args" with
      | Some (VStr j), Some (VStr t), Some (VDict a) =>
          match dict_get d "callback_url" with
          | None | Some VNone => Return (mkHiveJob j t a None)
          | Some (VStr c) => Return (mkHiveJob j t a (Some c))
          | Some _ => Raise (mkExn ValidationError "callback_url")
          end
      | _, _, _ => Raise (mkExn ValidationError "HiveJob")
      end
  | _ =>
      Raise (mkExn TypeError
               ("main.HiveJob() argument after ** must be a mapping, not " ++
                py_type_name v))
  end.

Definition py_eq_str (v : pyval) (s : string) : bool :=
  match v with
  | VStr s' => String.eqb s' s
  | _ => false
  end.

Definition dq : string := String (ascii_of_nat 34) "".
Definition nl : string := String (ascii_of_nat 10) "".

Definition one_hour : Z := 3600 * 1000000.

(* ================================================================== *)
(** ** The program *)

Section Node.

Variable env : Env.

(** *** Primitive effects *)

Definition record (e : event) (s : Sys) : Sys :=
  {| st := st s; hist := hist s ++ [e] |}.

Definition datetime_now : M Z :=
  fun s => (Return (env_now env (hist s)), record EvNow s).

Definition http_send (rq : http_request) : M http_response :=
  fun s => (env_http env (hist s) rq, record (EvHttp rq) s).

Definition subprocess_run (argv : list string) : M proc_result :=
  fun s => (env_run env (hist s) argv, record (EvRun argv) s).

Definition subprocess_shell (command : pyval) : M proc_result :=
  fun s => (env_shell env (hist s) command, record (EvShell command) s).

Definition file_read (path : pyval) : M string :=
  fun s => (env_read env (hist s) path, record (EvRead path) s).

Definition file_write (path content : pyval) : M unit :=
  fun s => (env_write env (hist s) path content, record (EvWrite path content) s).

Definition os_listdir (path : pyval) : M (list string) :=
  fun s => (env_listdir env (hist s) path, record (EvListdir path) s).

Definition print (msg : string) : M unit := emit (EvPrint msg).

Definition sleep (secs : Z) : M unit := emit (EvSleep secs).

Definition fmt (v : pyval) : string := py_str (py_repr env) v.

(** *** Tools *)

Definition bark_script (text voice : pyval) (output_path : string) : string :=
  nl ++ "import bark" ++ nl ++
  "bark.SAMPLE_RATE = 24000" ++ nl ++
  "audio = bark.generate_audio(" ++ dq ++ fmt text ++ dq ++
  ", history_prompt=" ++ dq ++ fmt voice ++ dq ++ ")" ++ nl ++
  "bark.write_wav(" ++ dq ++ output_path ++ dq ++
  ", bark.SAMPLE_RATE, audio)" ++ nl ++
  "print(" ++ dq ++ "done" ++ dq ++ ")" ++ nl.

Definition tool_bark_tts (text voice : pyval) : M pyval :=
  try_except
    (result <- subprocess_run ["python"; "-c"; "import bark; print('ok')"] ;;
     if negb (str_contains "ok" (stdout result))
     then ret (VDict [("error", VStr "Bark not installed");
                      ("hint", VStr "pip install bark")])
     else
       now <- datetime_now ;;
       let output_path := "/tmp/bark_" ++ strftime env now ++ ".wav" in
       subprocess_run ["python"; "-c"; bark_script text voice output_path] ;;
       ret (VDict [("audio_path", VStr output_path);
                   ("status", VStr "generated")]))
    (fun e => ret (error_dict (exn_msg e))).

Definition tool_n8n_trigger (workflow payload : pyval) : M pyval :=
  let n8n_url := N8N_URL (cfg env) in
  try_except
    (resp <- http_send (mkRequest POST
                          (n8n_url ++ "/webhook/" ++ fmt workflow)
                          None (Json payload)) ;;
     body <- lift (resp_json resp) ;;
     ret (VDict [("status", VInt (status_code resp)); ("result", body)]))
    (fun e => ret (error_dict (exn_msg e))).

Definition tool_local_exec (command safe_mode : pyval) : M pyval :=
  blocked <- (if py_truthy safe_mode
              then lift (any_in dangerous command)
              else ret false) ;;
  if blocked
  then ret (VDict [("error", VStr "Command blocked by safe_mode");
                   ("command", command)])
  else
    try_except
      (result <- subprocess_shell command ;;
       ret (VDict [("stdout", VStr (str_take (Z.to_nat 10000) (stdout result)));
                   ("stderr", VStr (str_take (Z.to_nat 2000) (stderr result)));
                   ("exit_code", VInt (returncode result))]))
      (fun e =>
         if is_timeout e
         then ret (error_dict "Command timed out (60s)")
         else ret (error_dict (exn_msg e))).

Definition tool_filesystem (action path content : pyval) : M pyval :=
  try_except
    (if py_eq_str action "read" then
       text <- file_read path ;;
       ret (VDict [("content", VStr (str_take (Z.to_nat 50000) text))])
     else if py_eq_str action "write" then
       file_write path content ;;
       ret (VDict [("status", VStr "written"); ("path", path)])
     else if py_eq_str action "list" then
       items <- os_listdir path ;;
       ret (VDict [("items", VList (map VStr (firstn 100 items)))])
     else
       ret (error_dict ("Unknown action: " ++ fmt action)))
    (fun e => ret (error_dict (exn_msg e))).

(** Each [fn] is the handler as it is called with keyword arguments:
    the interpreter's check of the keywords, then the body. *)
Definition sig_bark_tts : signature :=
  [("text", None); ("voice", Some (VStr "v2/en_speaker_6"))].
Definition sig_n8n_trigger : signature :=
  [("workflow", None); ("payload", Some (VDict []))].
Definition sig_local_exec : signature :=
  [("command", None); ("safe_mode", Some (VBool true))].
Definition sig_filesystem : signature :=
  [("action", None); ("path", None); ("content", Some VNone)].

Definition call_bark_tts (kw : pydict) : M pyval :=
  lift (check_kwargs "tool_bark_tts" sig_bark_tts kw) ;;
  tool_bark_tts (dict_get_default kw "text" VNone)
                (dict_get_default kw "voice" (VStr "v2/en_speaker_6")).

Definition call_n8n_trigger (kw : pydict) : M pyval :=
  lift (check_kwargs "tool_n8n_trigger" sig_n8n_trigger kw) ;;
  tool_n8n_trigger (dict_get_default kw "workflow" VNone)
                   (dict_get_default kw "payload" (VDict [])).

Definition call_local_exec (kw : pydict) : M pyval :=
  lift (check_kwargs "tool_local_exec" sig_local_exec kw) ;;
  tool_local_exec (dict_get_default kw "command" VNone)
                  (dict_get_default kw "safe_mode" (VBool true)).

Definition call_filesystem (kw : pydict) : M pyval :=
  lift (check_kwargs "tool_filesystem" sig_filesystem kw) ;;
  tool_filesystem (dict_get_default kw "action" VNone)
                  (dict_get_default kw "path" VNone)
                  (dict_get_default kw "content" VNone).

Record Tool : Type := mkTool {
  fn : pydict -> M pyval;
  description : string;
  params : pydict
}.

(** Tool registry *)
Definition TOOLS : list (string * Tool) :=
  [ ("bark_tts",
     mkTool call_bark_tts "Generate speech from text using Bark TTS"
       [("text", VStr "string"); ("voice", VStr "string (optional)")]);
    ("n8n_trigger",
     mkTool call_n8n_trigger "Trigger n8n workflow by webhook name"
       [("workflow", VStr "string"); ("payload", VStr "object (optional)")]);
    ("local_exec",
     mkTool call_local_exec "Execute local shell command"
       [("command", VStr "string");
        ("safe_mode", VStr "boolean (default true)")]);
    ("filesystem",
     mkTool call_filesystem "Read/write/list filesystem"
       [("action", VStr "read|write|list"); ("path", VStr "string");
        ("content", VStr "string (for write)")]) ].

Fixpoint assoc {A} (l : list (string * A)) (k : string) : option A :=
  match l with
  | [] => None
  | (k', a) :: l' => if String.eqb k' k then Some a else assoc l' k
  end.

(** [TOOLS.get(name)] for a [str] key *)
Definition tools_get (name : string) : option Tool := assoc TOOLS name.

(** [v in TOOLS] followed by [TOOLS[v]] for an arbitrary value [v]:
    the key is hashed before it is looked up, and the keys of the
    registry are strings. *)
Definition tools_lookup (v : pyval) : outcome (option Tool) :=
  match v with
  | VStr name => Return (tools_get name)
  | VList _ | VDict _ =>
      Raise (mkExn TypeError
               ("unhashable type: " ++ quoted (py_type_name v)))
  | _ => Return None
  end.

(** [tool_fn( **v )] where [v] may be any value. *)
Definition call_with (t : Tool) (v : pyval) : M pyval :=
  match v with
  | VDict kw => fn t kw
  | _ =>
      raise (mkExn TypeError
               ("argument after ** must be a mapping, not " ++
                py_type_name v))
  end.

(** *** Railway bridge *)

Definition client_id : string := "node-" ++ NODE_ID (cfg env).

Definition authorize_request : http_request :=
  mkRequest POST (AUTH_URL (cfg env) ++ "/authorize") None
    (Form [("client_id", VStr client_id);
           ("redirect_uri", VStr "http://localhost:8000/callback");
           ("scope", VStr "read write full");
           ("state", VStr (NODE_ID (cfg env)));
           ("code_challenge", VStr "local");
           ("code_challenge_method", VStr "S256");
           ("scent", VStr (SCENT (cfg env)));
           ("action", VStr "auth")]).

Definition token_request (code : string) : http_request :=
  mkRequest POST (AUTH_URL (cfg env) ++ "/token") None
    (Form [("grant_type", VStr "authorization_code");
           ("code", VStr code);
           ("client_id", VStr client_id);
           ("redirect_uri", VStr "http://localhost:8000/callback")]).

(** [location.split("code=")[1].split("&")[0]] when ["code=" in location] *)
Definition extract_code (location : string) : option string :=
  if str_contains "code=" location
  then Some (hd "" (str_split "&" (nth 1 (str_split "code=" location) "")))
  else None.

(** The test of the first line of [get_token]; [and] evaluates the
    clock only when a token and an expiry are present. *)
Definition cached_token_valid : M bool :=
  s <- get_state ;;
  if py_truthy (token s) then
    match token_expiry s with
    | Some expiry => now <- datetime_now ;; ret (now <? expiry)
    | None => ret false
    end
  else ret false.

Definition get_token : M pyval :=
  valid <- cached_token_valid ;;
  if valid then s <- get_state ;; ret (token s)
  else
    resp <- http_send authorize_request ;;
    let location :=
      match resp_location resp with Some l => l | None => "" end in
    match extract_code location with
    | Some (String c code') =>
        let code := String c code' in
        resp <- http_send (token_request code) ;;
        token_data <- lift (resp_json resp) ;;
        access_token <- lift (py_get token_data "access_token") ;;
        modify (set_token access_token) ;;
        now <- datetime_now ;;
        modify (set_token_expiry (now + one_hour)) ;;
        s <- get_state ;;
        ret (token s)
    | _ => raise (mkExn PlainException "Failed to get auth code")
    end.

Definition CAPABILITIES : list string :=
  ["bark-tts"; "n8n"; "local-exec"; "filesystem"].

Definition register_request (tok : pyval) : http_request :=
  mkRequest POST (RAILWAY_URL (cfg env) ++ "/nodes/register") (Some tok)
    (Json (VDict [("node_id", VStr (NODE_ID (cfg env)));
                  ("capabilities", VList (map VStr CAPABILITIES));
                  ("callback_url", VStr "http://localhost:8000/invoke")])).

Definition register_node : M unit :=
  try_except
    (tok <- get_token ;;
     resp <- http_send (register_request tok) ;;
     if status_code resp =? 200 then
       modify set_registered ;;
       print ("✓ Registered as " ++ NODE_ID (cfg env))
     else
       print ("✗ Registration failed: " ++ resp_text resp))
    (fun e => print ("✗ Registration error: " ++ exn_msg e)).

Definition result_request (tok : pyval) (job : HiveJob) (result : pyval)
  : http_request :=
  mkRequest POST
    (RAILWAY_URL (cfg env) ++ "/nodes/" ++ NODE_ID (cfg env) ++ "/result")
    (Some tok)
    (Json (VDict [("job_id", VStr (job_id job)); ("result", result)])).

(** The handler step of [process_job]. *)
Definition run_tool (job : HiveJob) : M pyval :=
  match tools_get (tool job) with
  | Some t => fn t (args job)
  | None => ret (error_dict "Unknown tool")
  end.

(** The body of the [try] that reports a result. *)
Definition report_result (job : HiveJob) (result : pyval) : M unit :=
  tok <- get_token ;;
  http_send (result_request tok job result) ;;
  modify incr_jobs_processed.

Definition process_job (job : HiveJob) : M unit :=
  print ("Processing job: " ++ job_id job ++ " - " ++ tool job) ;;
  result <- run_tool job ;;
  try_except
    (report_result job result)
    (fun e => print ("Failed to report result: " ++ exn_msg e)).

Definition pending_request (tok : pyval) : http_request :=
  mkRequest GET
    (RAILWAY_URL (cfg env) ++ "/nodes/" ++ NODE_ID (cfg env) ++ "/pending")
    (Some tok) NoBody.

(** [for job in jobs: await process_job(HiveJob( **job ))] *)
Fixpoint process_jobs (jobs : list pyval) : M unit :=
  match jobs with
  | [] => ret tt
  | j :: rest =>
      job <- lift (HiveJob_of j) ;;
      process_job job ;;
      process_jobs rest
  end.

(** The body of the [try] of one turn of the poll loop. *)
Definition poll_once : M unit :=
  tok <- get_token ;;
  resp <- http_send (pending_request tok) ;;
  (if status_code resp =? 200 then
     jobs <- lift (resp_json resp) ;;
     items <- lift (py_iter jobs) ;;
     process_jobs items
   else ret tt) ;;
  now <- datetime_now ;;
  modify (set_last_sync (isoformat env now)).

(** One turn of the [while] loop. *)
Definition poll_iteration : M unit :=
  try_except poll_once (fun e => print ("Poll error: " ++ exn_msg e)) ;;
  sleep (POLL_INTERVAL (cfg env)).

Inductive loop_status : Type :=
| Exited      (* the [while] test was false *)
| Running.    (* the turns asked for were made and the loop goes on *)

(** [poll_for_work], unrolled for at most [turns] turns. *)
Fixpoint poll_for_work (turns : nat) : M loop_status :=
  match turns with
  | O => ret Running
  | S n =>
      s <- get_state ;;
      if bridge_active s
      then poll_iteration ;; poll_for_work n
      else ret Exited
  end.

(** *** Endpoints *)

Definition tool_listing : pyval :=
  VDict [("tools",
          VList (map (fun nt =>
                        VDict [("name", VStr (fst nt));
                               ("description", VStr (description (snd nt)));
                               ("inputSchema",
                                VDict [("type", VStr "object");
                                       ("properties",
                                        VDict (params (snd nt)))])])
                     TOOLS))].

Definition health : M pyval :=
  s <- get_state ;;
  ret (VDict [("status", VStr "healthy");
              ("node_id", VStr (NODE_ID (cfg env)));
              ("bridge", VStr (if registered s then "connected"
                               else "disconnected"));
              ("jobs_processed", VInt (jobs_processed s));
              ("last_sync", match last_sync s with
                            | Some t => VStr t
                            | None => VNone
                            end)]).

Definition list_tools : M pyval := ret tool_listing.

Definition invoke_tool (call : ToolCall) : M pyval :=
  match tools_get (call_tool call) with
  | None =>
      raise (mkExn (HTTPException 404) ("Tool not found: " ++ call_tool call))
  | Some t =>
      result <- fn t (call_args call) ;;
      ret (VDict [("result", result)])
  end.

Definition rpc_result (id : option Z) (v : pyval) : MCPResponse :=
  mkMCPResponse "2.0" id (Some v) None.

Definition rpc_error (id : option Z) (code : Z) (msg : string) : MCPResponse :=
  mkMCPResponse "2.0" id None
    (Some [("code", VInt code); ("message", VStr msg)]).

Definition params_get (p : option pydict) (k : string) (dflt : pyval)
  : outcome pyval :=
  match p with
  | Some d => Return (dict_get_default d k dflt)
  | None =>
      Raise (mkExn AttributeError
               "'NoneType' object has no attribute 'get'")
  end.

Definition mcp_message (request : MCPRequest) : M MCPResponse :=
  if String.eqb (req_method request) "initialize" then
    ret (rpc_result (req_id request)
           (VDict [("protocolVersion", VStr "2024-11-05");
                   ("serverInfo",
                    VDict [("name", VStr ("ada-local-" ++ NODE_ID (cfg env)));
                           ("version", VStr "1.0.0")]);
                   ("capabilities", VDict [("tools", VDict [])])]))
  else if String.eqb (req_method request) "tools/list" then
    ret (rpc_result (req_id request) tool_listing)
  else if String.eqb (req_method request) "tools/call" then
    tool_name <- lift (params_get (req_params request) "name" VNone) ;;
    tool_args <- lift (params_get (req_params request) "arguments" (VDict [])) ;;
    found <- lift (tools_lookup tool_name) ;;
    match found with
    | None =>
        ret (rpc_error (req_id request) (-32601)
               ("Tool not found: " ++ fmt tool_name))
    | Some t =>
        result <- call_with t tool_args ;;
        ret (rpc_result (req_id request)
               (VDict [("content",
                        VList [VDict [("type", VStr "text");
                                      ("text",
                                       VStr (json_dumps env result))]])]))
    end
  else
    ret (rpc_error (req_id request) (-32601)
           ("Unknown method: " ++ req_method request)).

Definition invoke_from_railway (job : HiveJob) : M pyval :=
  process_job job ;;
  ret (VDict [("status", VStr "accepted"); ("job_id", VStr (job_id job))]).

Definition bridge_status : M pyval :=
  s <- get_state ;;
  ret (VDict [("node_id", VStr (NODE_ID (cfg env)));
              ("capabilities", VList (map VStr CAPABILITIES));
              ("registered", VBool (registered s));
              ("jobs_processed", VInt (jobs_processed s));
              ("last_sync", match last_sync s with
                            | Some t => VStr t
                            | None => VNone
                            end);
              ("uptime", VStr "healthy")]).

End Node.

(** *** The web framework's boundary

    What the caller of an endpoint receives: the returned body, the
    error response built from an [HTTPException], or, for any other
    exception that leaves the endpoint, an unhandled server fault. *)
Inductive reply (A : Type) : Type :=
| Body (a : A)
| ErrorResponse (status : Z) (detail : string)
| Unhandled (e : exn).
Arguments Body {A} a.
Arguments ErrorResponse {A} status detail.
Arguments Unhandled {A} e.

Definition respond {A} (o : outcome A) : reply A :=
  match o with
  | Return a => Body a
  | Raise e =>
      match exn_cls e with
      | HTTPException status => ErrorResponse status (exn_msg e)
      | _ => Unhandled e
      end
  end.

(* ================================================================== *)
(** ** Concrete worlds for the examples *)

Definition redirect_with_code : http_response :=
  mkResponse 302
    (Some "http://localhost:8000/callback?code=abc123&state=wsl-local")
    "" (Raise (mkExn JSONDecodeError "Expecting value")).

Definition token_reply : http_response :=
  mkResponse 200 None ""
    (Return (VDict [("access_token", VStr "tok-1");
                    ("token_type", VStr "bearer")])).

Definition status_reply (status : Z) (body : pyval) : http_response :=
  mkResponse status None "" (Return body).

Definition refused {A} : outcome A :=
  Raise (mkExn TransportError "All connection attempts failed").

(** A dispatch service that always grants a token and answers the three
    node endpoints as given. *)
Definition hive (register pending report : outcome http_response)
  : list event -> http_request -> outcome http_response :=
  fun _ rq =>
    if String.eqb (rq_url rq) "https://auth2.msgraph.de/authorize"
    then Return redirect_with_code
    else if String.eqb (rq_url rq) "https://auth2.msgraph.de/token"
    then Return token_reply
    else if String.eqb (rq_url rq) "https://rest.msgraph.de/nodes/register"
    then register
    else if String.eqb (rq_url rq)
              "https://rest.msgraph.de/nodes/wsl-local/pending"
    then pending
    else if String.eqb (rq_url rq)
              "https://rest.msgraph.de/nodes/wsl-local/result"
    then report
    else refused.

(** One second passes with every event; commands print [hi]. *)
Definition world (http : list event -> http_request -> outcome http_response)
  : Env :=
  {| cfg := default_config;
     env_now := fun h => Z.of_nat (List.length h) * 1000000;
     env_http := http;
     env_run := fun _ _ => Return (mkProc "" "" 0);
     env_shell := fun _ _ => Return (mkProc "hi" "" 0);
     env_read := fun _ _ => Return "";
     env_write := fun _ _ _ => Return tt;
     env_listdir := fun _ _ => Return [];
     strftime := str_of_Z;
     isoformat := str_of_Z;
     py_repr := fun _ => "[...]";
     json_dumps := fun _ => "{...}" |}.

Definition ok_reply : outcome http_response :=
  Return (status_reply 200 (VDict [])).

Definition no_jobs : outcome http_response :=
  Return (status_reply 200 (VList [])).

Definition fresh : Sys := {| st := initial_state; hist := [] |}.

Definition active (s : Sys) : Sys :=
  {| st := {| token := token (st s); token_expiry := token_expiry (st s);
              registered := registered (st s);
              jobs_processed := jobs_processed (st s);
              last_sync := last_sync (st s); bridge_active := true |};
     hist := hist s |}.

(** Everything answers with success and no job is pending. *)
Definition calm : Env := world (hive ok_reply no_jobs ok_reply).

(** The system once a token has been cached in the calm world. *)
Definition cached : Sys := snd (get_token calm fresh).

Definition echo_job : HiveJob :=
  mkHiveJob "job-1" "local_exec" [("command", VStr "echo hi")] None.

(* ================================================================== *)
(** ** Vocabulary of the properties *)

Definition not_sleep (e : event) : Prop :=
  match e with EvSleep _ => False | _ => True end.

(** A computation is [tame] for a projection of the bridge state when
    it never changes that projection and never sleeps. *)
Definition tame {F A : Type} (proj : BridgeState -> F) (c : M A) : Prop :=
  forall s,
    proj (st (snd (c s))) = proj (st s) /\
    exists h, hist (snd (c s)) = (hist s ++ h)%list /\ Forall not_sleep h.

Definition blocked_reply (command : string) : pyval :=
  VDict [("error", VStr "Command blocked by safe_mode");
         ("command", VStr command)].


(** A cached credential whose expiry is in the future. *)
Definition credential_cached (env : Env) (s : Sys) : bool :=
  py_truthy (token (st s)) &&
  match token_expiry (st s) with
  | Some expiry => env_now env (hist s) <? expiry
  | None => false
  end.

(** The system after the test of the cache: the clock has been read
    when there were a token and an expiry to compare with. *)
Definition after_check (s : Sys) : Sys :=
  if py_truthy (token (st s))
  then match token_expiry (st s) with
       | Some _ => record EvNow s
       | None => s
       end
  else s.

(** What an authenticated request built by [mk] receives when it is
    made from [s]: nothing if the token could not be obtained or the
    transport raised. *)
Definition reply_to (env : Env) (mk : pyval -> http_request) (s : Sys)
  : option http_response :=
  match get_token env s with
  | (Return tok, s1) =>
      match env_http env (hist s1) (mk tok) with
      | Return resp => Some resp
      | Raise _ => None
      end
  | (Raise _, _) => None
  end.

Definition is_200 (r : option http_response) : bool :=
  match r with
  | Some resp => status_code resp =? 200
  | None => false
  end.

(** A world whose dispatch service acknowledges registration with
    [201 Created]. *)
Definition created_world : Env :=
  world (hive (Return (status_reply 201 (VDict []))) no_jobs ok_reply).

(** Registration as the specification words it: never raising, and
    the flag set exactly when
    the POST is answered with a status in the 2xx range. *)
Definition registers_on_any_2xx (env : Env) (s : Sys) : Prop :=
  exists s',
    register_node env s = (Return tt, s') /\
    (registered (st s') = true <->
     exists resp,
       reply_to env (register_request env) s = Some resp /\
       200 <= status_code resp < 300).

(** The part of a turn that precedes the stamp. *)
Definition poll_fetch (env : Env) : M unit :=
  tok <- get_token env ;;
  resp <- http_send env (pending_request env tok) ;;
  if status_code resp =? 200 then
    jobs <- lift (resp_json resp) ;;
    items <- lift (py_iter jobs) ;;
    process_jobs env items
  else ret tt.

Definition stamp (env : Env) (s : Sys) : Sys :=
  {| st := set_last_sync (isoformat env (env_now env (hist s))) (st s);
     hist := (hist s ++ [EvNow])%list |}.

(** A world whose dispatch service answers the poll with
    [500 Internal Server Error]. *)
Definition failing_world : Env :=
  world (hive ok_reply (Return (status_reply 500 VNone)) ok_reply).

(** One pending job, as the dispatch service sends it. *)
Definition echo_entry : pyval :=
  VDict [("job_id", VStr "job-1"); ("tool", VStr "local_exec");
         ("args", VDict [("command", VStr "echo hi")])].

(** A world whose dispatch service has one job pending. *)
Definition busy_world : Env :=
  world (hive ok_reply (Return (status_reply 200 (VList [echo_entry])))
           ok_reply).

(** The stamp as the specification words it, a poll succeeding when
    the pending-jobs request
    is answered with status 200: the stamp changes in the turns whose poll
    succeeded, and only in them. *)
Definition last_sync_tracks_success (env : Env) (s : Sys) : Prop :=
  last_sync (st (snd (poll_iteration env s))) <> last_sync (st s) <->
  is_200 (reply_to env (pending_request env) s) = true.

Definition processing_banner (job : HiveJob) : event :=
  EvPrint ("Processing job: " ++ job_id job ++ " - " ++ tool job).

(** A world whose dispatch service cannot be reached for results. *)
Definition unreachable_world : Env :=
  world (hive ok_reply no_jobs refused).

Definition echo_result : pyval :=
  VDict [("stdout", VStr "hi"); ("stderr", VStr ""); ("exit_code", VInt 0)].

(** The counter as the specification words it: one more processed job once the report step
    has been attempted, whether or not the report went through. *)
Definition counted_after_attempt (env : Env) (job : HiveJob) (s : Sys) : Prop :=
  forall s' tok result,
    process_job env job s = (Return tt, s') ->
    In (EvHttp (result_request env tok job result)) (hist s') ->
    jobs_processed (st s') = jobs_processed (st s) + 1.

Definition accepted (job : HiveJob) : pyval :=
  VDict [("status", VStr "accepted"); ("job_id", VStr (job_id job))].

(** The push endpoint as the specification words it: the
    acknowledgment is returned while the
    result of the job has not been reported yet. *)
Definition acknowledged_before_report (env : Env) (job : HiveJob) (s : Sys)
  : Prop :=
  exists s',
    invoke_from_railway env job s = (Return (accepted job), s') /\
    forall tok result,
      ~ In (EvHttp (result_request env tok job result)) (hist s').

Definition missing_command : exn :=
  mkExn TypeError
    "tool_local_exec() missing 1 required positional argument: 'command'".

Definition not_iterable : exn :=
  mkExn TypeError "argument of type 'int' is not iterable".

Definition no_get : exn :=
  mkExn AttributeError "'NoneType' object has no attribute 'get'".

(** *** Further vocabulary: handlers, parsing, counting *)

Definition is_dict (v : pyval) : Prop :=
  match v with VDict _ => True | _ => False end.

(** [command] contains none of the dangerous substrings. *)
Definition harmless (command : string) : Prop :=
  forall d pre post, In d dangerous -> command <> pre ++ d ++ post.

(** An occurrence of [sep] in [a ++ r] starts inside [a]. *)
Fixpoint starts_within (sep a r : string) : bool :=
  match a with
  | EmptyString => false
  | String c a' => starts_with sep (a ++ r) || starts_within sep a' r
  end.

(** The names a tool listing announces. *)
Definition listed_names (listing : pyval) : list pyval :=
  match listing with
  | VDict d =>
      match dict_get d "tools" with
      | Some (VList tools) =>
          map (fun t => match t with
                        | VDict td => dict_get_default td "name" VNone
                        | _ => VNone
                        end) tools
      | _ => []
      end
  | _ => []
  end.

(** An authorization service whose redirect carries no code. *)
Definition denying_world : Env :=
  world (fun _ rq =>
           if String.eqb (rq_url rq) "https://auth2.msgraph.de/authorize"
           then Return (mkResponse 302
                          (Some "http://localhost:8000/callback?error=denied")
                          "" refused)
           else refused).

(** A token endpoint whose answer has no [access_token]. *)
Definition tokenless_world : Env :=
  world (fun _ rq =>
           if String.eqb (rq_url rq) "https://auth2.msgraph.de/authorize"
           then Return redirect_with_code
           else if String.eqb (rq_url rq) "https://auth2.msgraph.de/token"
           then Return (status_reply 400
                          (VDict [("error", VStr "invalid_grant")]))
           else refused).

(** A world whose shell prints more than the handler passes on. *)
Definition chatty_world : Env :=
  {| cfg := default_config;
     env_now := fun h => Z.of_nat (List.length h) * 1000000;
     env_http := hive ok_reply no_jobs ok_reply;
     env_run := fun _ _ => Return (mkProc "ok" "" 0);
     env_shell := fun _ _ => Return (mkProc "héllo" "warning" 0);
     env_read := fun _ _ => Return "contents";
     env_write := fun _ _ _ => Return tt;
     env_listdir := fun _ _ => Return ["a"; "b"];
     strftime := str_of_Z;
     isoformat := str_of_Z;
     py_repr := fun _ => "[...]";
     json_dumps := fun _ => "{...}" |}.

(** The keywords [kw] fit a signature: each is one of its parameters,
    and each parameter without a default is given. *)
Definition fits (sig : signature) (kw : pydict) : Prop :=
  (forall k v, In (k, v) kw -> has_param sig k = true) /\
  (forall p, In (p, None) sig -> dict_get kw p <> None).

(** The parameters of the handler registered under [name]. *)
Definition signature_of (name : string) : signature :=
  if String.eqb name "bark_tts" then sig_bark_tts
  else if String.eqb name "n8n_trigger" then sig_n8n_trigger
  else if String.eqb name "local_exec" then sig_local_exec
  else if String.eqb name "filesystem" then sig_filesystem
  else [].

(** The [location] header of a response, empty when there is none. *)
Definition location_of (resp : http_response) : string :=
  match resp_location resp with Some l => l | None => "" end.

Definition unhashable_list : exn :=
  mkExn TypeError "unhashable type: 'list'".

Definition unhashable_dict : exn :=
  mkExn TypeError "unhashable type: 'dict'".

(* ================================================================== *)
(** * Properties *)

(** ** Substrings *)

Lemma starts_with_app (p rest : string) : starts_with p (p ++ rest) = true.
Proof.
  induction p as [|a p IH]; simpl.
  - reflexivity.
  - now rewrite Ascii.eqb_refl, IH.
Qed.

Lemma str_contains_here (needle hay : string) :
  starts_with needle hay = true -> str_contains needle hay = true.
Proof.
  intros H. destruct hay; simpl; rewrite H; reflexivity.
Qed.

Lemma str_contains_app (needle pre post : string) :
  str_contains needle (pre ++ needle ++ post) = true.
Proof.
  induction pre as [|c pre IH].
  - change ("" ++ needle ++ post) with (needle ++ post).
    apply str_contains_here, starts_with_app.
  - simpl. rewrite IH. apply orb_true_r.
Qed.

Lemma starts_with_split (p s : string) :
  starts_with p s = true -> exists rest, s = p ++ rest.
Proof.
  revert s. induction p as [|a p IH]; intros s H.
  - exists s. reflexivity.
  - destruct s as [|b s]; simpl in H; [discriminate|].
    apply andb_true_iff in H as [Hab Hps].
    apply Ascii.eqb_eq in Hab. subst b.
    destruct (IH _ Hps) as [rest ->]. exists rest. reflexivity.
Qed.

(** [str_contains] decides the substring relation. *)
Lemma str_contains_iff (needle hay : string) :
  str_contains needle hay = true <->
  exists pre post, hay = pre ++ needle ++ post.
Proof.
  split.
  - induction hay as [|c hay IH]; simpl; intros H.
    + rewrite orb_false_r in H.
      apply starts_with_split in H as [rest ->]. now exists "", rest.
    + apply orb_true_iff in H as [H|H].
      * apply starts_with_split in H as [rest ->]. now exists "", rest.
      * destruct (IH H) as (pre & post & ->).
        now exists (String c pre), post.
  - intros (pre & post & ->). apply str_contains_app.
Qed.

Lemma any_in_str (ds : list string) (command : string) :
  any_in ds (VStr command) =
  Return (existsb (fun d => str_contains d command) ds).
Proof.
  induction ds as [|d ds IH]; simpl.
  - reflexivity.
  - destruct (str_contains d command); simpl; [reflexivity|exact IH].
Qed.

(** [split] and the extraction of the authorization code, on the shapes
    of redirect the authorization service sends. *)
Example split_keeps_empty_segments :
  str_split "&" "a&&b&" = ["a"; ""; "b"; ""].
Proof. reflexivity. Qed.

Example split_on_code :
  str_split "code=" "http://localhost:8000/callback?code=abc123&state=n"
  = ["http://localhost:8000/callback?"; "abc123&state=n"].
Proof. reflexivity. Qed.

Example extract_code_found :
  extract_code "http://localhost:8000/callback?code=abc123&state=n"
  = Some "abc123".
Proof. reflexivity. Qed.

Example extract_code_empty :
  extract_code "http://localhost:8000/callback?code=&state=n" = Some "".
Proof. reflexivity. Qed.

Example extract_code_absent :
  extract_code "http://localhost:8000/callback?error=denied" = None.
Proof. reflexivity. Qed.

(** ** Frames: what a computation leaves alone *)

Section Frame.

Context {F : Type} (proj : BridgeState -> F).

Lemma tame_ret {A} (a : A) : tame proj (ret a).
Proof. intros s; split; [reflexivity|]. exists []. now rewrite app_nil_r. Qed.

Lemma tame_raise {A} (e : exn) : tame proj (@raise A e).
Proof. intros s; split; [reflexivity|]. exists []. now rewrite app_nil_r. Qed.

Lemma tame_lift {A} (o : outcome A) : tame proj (lift o).
Proof. intros s; split; [reflexivity|]. exists []. now rewrite app_nil_r. Qed.

Lemma tame_get_state : tame proj get_state.
Proof. intros s; split; [reflexivity|]. exists []. now rewrite app_nil_r. Qed.

Lemma tame_modify (f : BridgeState -> BridgeState) :
  (forall b, proj (f b) = proj b) -> tame proj (modify f).
Proof.
  intros Hf s; split; [apply Hf|]. exists []. simpl. now rewrite app_nil_r.
Qed.

Lemma tame_emit (e : event) : not_sleep e -> tame proj (emit e).
Proof.
  intros He s; split; [reflexivity|]. exists [e]. simpl. auto.
Qed.

Lemma tame_bind {A B} (c : M A) (k : A -> M B) :
  tame proj c -> (forall a, tame proj (k a)) -> tame proj (bind c k).
Proof.
  intros Hc Hk s. unfold bind.
  destruct (Hc s) as (Hp & h & Hh & Hq).
  destruct (c s) as [[a|e] s1]; simpl in *.
  - destruct (Hk a s1) as (Hp' & h' & Hh' & Hq').
    split; [congruence|].
    exists (h ++ h')%list. rewrite Hh', Hh, app_assoc.
    split; [reflexivity|]. now apply Forall_app.
  - split; [exact Hp|]. now exists h.
Qed.

Lemma tame_try {A} (body : M A) (handler : exn -> M A) :
  tame proj body -> (forall e, tame proj (handler e)) -> tame proj (try_except body handler).
Proof.
  intros Hc Hk s. unfold try_except.
  destruct (Hc s) as (Hp & h & Hh & Hq).
  destruct (body s) as [[a|e] s1]; simpl in *.
  - split; [exact Hp|]. now exists h.
  - destruct (Hk e s1) as (Hp' & h' & Hh' & Hq').
    split; [congruence|].
    exists (h ++ h')%list. rewrite Hh', Hh, app_assoc.
    split; [reflexivity|]. now apply Forall_app.
Qed.

(** The effects that record one event and ask the world. *)
Ltac one_event e :=
  intros s; split; [reflexivity|]; exists [e]; simpl;
  split; [reflexivity | repeat constructor].

Lemma tame_datetime_now env : tame proj (datetime_now env).
Proof. one_event EvNow. Qed.

Lemma tame_http_send env rq : tame proj (http_send env rq).
Proof. one_event (EvHttp rq). Qed.

Lemma tame_subprocess_run env argv : tame proj (subprocess_run env argv).
Proof. one_event (EvRun argv). Qed.

Lemma tame_subprocess_shell env command : tame proj (subprocess_shell env command).
Proof. one_event (EvShell command). Qed.

Lemma tame_file_read env path : tame proj (file_read env path).
Proof. one_event (EvRead path). Qed.

Lemma tame_file_write env path content : tame proj (file_write env path content).
Proof. one_event (EvWrite path content). Qed.

Lemma tame_os_listdir env path : tame proj (os_listdir env path).
Proof. one_event (EvListdir path). Qed.

End Frame.

Ltac tame_step :=
  lazymatch goal with
  | |- tame _ (bind _ _) => apply tame_bind; [|intros ?]
  | |- tame _ (try_except _ _) => apply tame_try; [|intros ?]
  | |- tame _ (ret _) => apply tame_ret
  | |- tame _ (raise _) => apply tame_raise
  | |- tame _ (lift _) => apply tame_lift
  | |- tame _ get_state => apply tame_get_state
  | |- tame _ (print _) => apply tame_emit; exact I
  | |- tame _ (datetime_now _) => apply tame_datetime_now
  | |- tame _ (http_send _ _) => apply tame_http_send
  | |- tame _ (subprocess_run _ _) => apply tame_subprocess_run
  | |- tame _ (subprocess_shell _ _) => apply tame_subprocess_shell
  | |- tame _ (file_read _ _) => apply tame_file_read
  | |- tame _ (file_write _ _ _) => apply tame_file_write
  | |- tame _ (os_listdir _ _) => apply tame_os_listdir
  | |- tame _ (if ?b then _ else _) => destruct b
  | |- tame _ (match ?x with _ => _ end) => destruct x
  | |- tame _ (let _ := _ in _) => cbv zeta
  end.

Ltac tame_tac := repeat tame_step.

Section NodeFrames.

Variable env : Env.
Context {F : Type} (proj : BridgeState -> F).

Lemma tame_tool_bark_tts text voice : tame proj (tool_bark_tts env text voice).
Proof. unfold tool_bark_tts. tame_tac. Qed.

Lemma tame_tool_n8n_trigger workflow payload :
  tame proj (tool_n8n_trigger env workflow payload).
Proof. unfold tool_n8n_trigger. tame_tac. Qed.

Lemma tame_tool_local_exec command safe_mode :
  tame proj (tool_local_exec env command safe_mode).
Proof. unfold tool_local_exec. tame_tac. Qed.

Lemma tame_tool_filesystem action path content :
  tame proj (tool_filesystem env action path content).
Proof. unfold tool_filesystem. tame_tac. Qed.

(** Every registered handler is tame, whatever keywords it is given. *)
Lemma tame_registered name t kw :
  tools_get env name = Some t -> tame proj (fn t kw).
Proof.
  unfold tools_get, TOOLS. cbn [assoc].
  repeat (destruct (String.eqb _ name);
          [intros [= <-]; cbn [fn];
           cbv [call_bark_tts call_n8n_trigger
                call_local_exec call_filesystem];
           tame_tac;
           first [ apply tame_tool_bark_tts | apply tame_tool_n8n_trigger
                 | apply tame_tool_local_exec | apply tame_tool_filesystem ]
          |]).
  discriminate.
Qed.

Lemma tame_run_tool job : tame proj (run_tool env job).
Proof.
  unfold run_tool. destruct (tools_get env (tool job)) eqn:E.
  - eapply tame_registered; eassumption.
  - apply tame_ret.
Qed.

Hypothesis proj_set_token : forall v b, proj (set_token v b) = proj b.
Hypothesis proj_set_token_expiry :
  forall t b, proj (set_token_expiry t b) = proj b.

Lemma tame_get_token : tame proj (get_token env).
Proof.
  unfold get_token, cached_token_valid. tame_tac;
    apply tame_modify; auto.
Qed.

Hypothesis proj_incr_jobs_processed :
  forall b, proj (incr_jobs_processed b) = proj b.

Lemma tame_process_job job : tame proj (process_job env job).
Proof.
  unfold process_job, report_result. tame_tac;
    first [ apply tame_run_tool | apply tame_get_token
          | apply tame_modify; auto ].
Qed.

Lemma tame_process_jobs jobs : tame proj (process_jobs env jobs).
Proof.
  induction jobs as [|j jobs IH]; simpl.
  - apply tame_ret.
  - tame_tac; [apply tame_process_job | exact IH].
Qed.

End NodeFrames.

(* ================================================================== *)
(** ** The safety filter of [local_exec] *)

(** C10: with [safe_mode] true, a command string that contains one of
    the dangerous substrings is answered with the structured refusal
    [{error: "Command blocked by safe_mode", command}], and nothing is
    executed: no event is recorded and the state is untouched.  The same
    holds through the registry entry when [safe_mode] is left to its
    default. *)
Theorem local_exec_safe_mode_blocks
  (env : Env) (command d pre post : string) (s : Sys) :
  In d dangerous ->
  command = pre ++ d ++ post ->
  tool_local_exec env (VStr command) (VBool true) s
    = (Return (blocked_reply command), s) /\
  call_local_exec env [("command", VStr command)] s
    = (Return (blocked_reply command), s).
Proof.
  intros Hd Hc.
  assert (Hany : any_in dangerous (VStr command) = Return true).
  { rewrite any_in_str. f_equal. apply existsb_exists.
    exists d. split; [exact Hd|]. subst command. apply str_contains_app. }
  assert (Hbody : tool_local_exec env (VStr command) (VBool true) s
                  = (Return (blocked_reply command), s)).
  { unfold tool_local_exec, bind, lift. cbn [py_truthy].
    rewrite Hany. reflexivity. }
  split; [exact Hbody|].
  unfold call_local_exec, bind, lift. cbn.
  exact Hbody.
Qed.

Lemma local_exec_safe_mode_blocks_witness :
  tool_local_exec (world (hive ok_reply no_jobs ok_reply))
    (VStr "sudo rm -rf /") (VBool true) fresh
    = (Return (blocked_reply "sudo rm -rf /"), fresh) /\
  call_local_exec (world (hive ok_reply no_jobs ok_reply))
    [("command", VStr "sudo rm -rf /")] fresh
    = (Return (blocked_reply "sudo rm -rf /"), fresh).
Proof.
  apply (local_exec_safe_mode_blocks _ "sudo rm -rf /" "rm -rf" "sudo " " /").
  - simpl. auto.
  - reflexivity.
Defined.

(* ================================================================== *)
(** ** The poll loop *)

Lemma tame_poll_once env : tame bridge_active (poll_once env).
Proof.
  unfold poll_once. tame_tac;
    first [ apply tame_get_token; reflexivity
          | apply tame_process_jobs; reflexivity
          | apply tame_modify; reflexivity ].
Qed.

(** One turn never raises, whatever happens inside it, and ends in the
    sleep. *)
Lemma poll_iteration_total env s :
  exists s1 body,
    poll_iteration env s = (Return tt, s1) /\
    bridge_active (st s1) = bridge_active (st s) /\
    hist s1 = (hist s ++ body ++ [EvSleep (POLL_INTERVAL (cfg env))])%list /\
    Forall not_sleep body.
Proof.
  assert (Htry : tame bridge_active
            (try_except (poll_once env)
               (fun e => print ("Poll error: " ++ exn_msg e)))).
  { tame_tac. apply tame_poll_once. }
  destruct (Htry s) as (Hp & body & Hh & Hq).
  unfold poll_iteration, bind.
  assert (Hret : exists s0,
            try_except (poll_once env)
              (fun e => print ("Poll error: " ++ exn_msg e)) s
            = (Return tt, s0)).
  { unfold try_except. destruct (poll_once env s) as [[[]|e] s0];
      eexists; reflexivity. }
  destruct Hret as [s0 Hs0]. rewrite Hs0 in *. simpl in Hp, Hh.
  eexists; exists body. split; [reflexivity|]. simpl.
  split; [exact Hp|]. split; [|exact Hq].
  rewrite Hh, app_assoc. reflexivity.
Qed.



(* ================================================================== *)
(** ** The credential cache *)

Lemma cached_token_valid_spec env s :
  cached_token_valid env s = (Return (credential_cached env s), after_check s).
Proof.
  unfold cached_token_valid, credential_cached, after_check, bind, get_state.
  destruct (py_truthy (token (st s))); [|reflexivity].
  destruct (token_expiry (st s)); reflexivity.
Qed.

Lemma after_check_st s : st (after_check s) = st s.
Proof.
  unfold after_check. destruct (py_truthy _); [|reflexivity].
  destruct (token_expiry _); reflexivity.
Qed.

Lemma get_token_cached env s :
  credential_cached env s = true ->
  get_token env s = (Return (token (st s)), record EvNow s).
Proof.
  intros Hc. unfold get_token, bind.
  rewrite cached_token_valid_spec, Hc.
  unfold get_state, ret, after_check.
  unfold credential_cached in Hc. apply andb_true_iff in Hc as [Ht He].
  rewrite Ht. destruct (token_expiry (st s)); [reflexivity|discriminate].
Qed.

(** The design of the cache.  A cached credential whose expiry is in
    the future is returned as it is, and the only thing that happens is
    the reading of the clock: no authorization request, no token exchange.
    When the credential is absent or not valid any more, [get_token]
    returns only after the authorization request and the exchange of the
    code of its redirect at the token endpoint; what it returns and caches
    is what the answer of the token endpoint holds under [access_token],
    and the cached expiry is the clock at caching time plus one hour.
    When it raises instead, the authorization request has been sent and
    the cache is as it was. *)
Theorem get_token_reuses_or_reacquires (env : Env) (s : Sys) :
  (credential_cached env s = true ->
   get_token env s = (Return (token (st s)), record EvNow s))
  /\
  (credential_cached env s = false ->
   (forall tok s',
      get_token env s = (Return tok, s') ->
      exists resp c code resp2 token_data,
        let h := (hist (after_check s) ++
                  [EvHttp (authorize_request env)])%list in
        let h' := (h ++ [EvHttp (token_request env (String c code))])%list in
        env_http env (hist (after_check s)) (authorize_request env)
          = Return resp /\
        extract_code (location_of resp) = Some (String c code) /\
        env_http env h (token_request env (String c code)) = Return resp2 /\
        resp_json resp2 = Return token_data /\
        py_get token_data "access_token" = Return tok /\
        hist s' = (h' ++ [EvNow])%list /\
        token (st s') = tok /\
        token_expiry (st s') = Some (env_now env h' + one_hour))
   /\
   (forall e s',
      get_token env s = (Raise e, s') ->
      token (st s') = token (st s) /\
      token_expiry (st s') = token_expiry (st s) /\
      exists more,
        hist s' = (hist (after_check s) ++
                   EvHttp (authorize_request env) :: more)%list)).
Proof.
  split; intros Hc.
  - now apply get_token_cached.
  - unfold get_token, bind. rewrite cached_token_valid_spec, Hc.
    pose proof (after_check_st s) as Hst.
    destruct (after_check s) as [b0 h0]. simpl in Hst. subst b0.
    cbn [hist].
    assert (Hraised : forall (e : exn) (more : list event) e' s',
         (@Raise pyval e,
          {| st := st s;
             hist := (h0 ++ EvHttp (authorize_request env) :: more)%list |})
         = (Raise e', s') ->
         token (st s') = token (st s) /\
         token_expiry (st s') = token_expiry (st s) /\
         exists more',
           hist s' = (h0 ++ EvHttp (authorize_request env) :: more')%list).
    { intros e more e' s' Heq.
      injection Heq as <- <-. simpl. repeat split. now exists more. }
    match goal with
    | |- (forall tok s', ?g = _ -> _) /\ _ => remember g as r eqn:Hr
    end.
    unfold http_send at 1 in Hr. cbn [hist st record] in Hr.
    destruct (env_http env h0 (authorize_request env)) as [resp|e0] eqn:Eauth.
    2:{ subst r. split; [intros ? ? Heq; discriminate Heq|].
        apply (Hraised e0 []). }
    fold (location_of resp) in Hr.
    destruct (extract_code (location_of resp)) as [[|c code]|] eqn:Ecode;
      try (subst r; split; [intros ? ? Heq; discriminate Heq|];
           apply (Hraised _ [])).
    unfold http_send, lift, modify, datetime_now, get_state, ret in Hr.
    cbn [hist st record] in Hr.
    destruct (env_http env _ (token_request env (String c code)))
      as [resp2|e2] eqn:Etoken.
    2:{ subst r. split; [intros ? ? Heq; discriminate Heq|].
        unfold record. cbn [hist st app].
        rewrite <- ?app_assoc. apply Hraised. }
    destruct (resp_json resp2) as [token_data|e3] eqn:Ejson.
    2:{ subst r. split; [intros ? ? Heq; discriminate Heq|].
        unfold record. cbn [hist st app].
        rewrite <- ?app_assoc. apply Hraised. }
    destruct (py_get token_data "access_token") as [access_token|e4] eqn:Eget.
    2:{ subst r. split; [intros ? ? Heq; discriminate Heq|].
        unfold record. cbn [hist st app].
        rewrite <- ?app_assoc. apply Hraised. }
    subst r. split; intros ? ? Heq; [|discriminate Heq].
    injection Heq as <- <-.
    exists resp, c, code, resp2, token_data. cbv zeta.
    split; [reflexivity|]. split; [exact Ecode|].
    split; [exact Etoken|]. split; [exact Ejson|]. split; [exact Eget|].
    unfold record. cbn. repeat split.
Qed.

Lemma get_token_reuses_or_reacquires_witness :
  get_token calm cached = (Return (VStr "tok-1"), record EvNow cached) /\
  exists resp c code resp2 token_data,
    let h := [EvHttp (authorize_request calm)] in
    let h' := (h ++ [EvHttp (token_request calm (String c code))])%list in
    env_http calm [] (authorize_request calm) = Return resp /\
    extract_code (location_of resp) = Some (String c code) /\
    env_http calm h (token_request calm (String c code)) = Return resp2 /\
    resp_json resp2 = Return token_data /\
    py_get token_data "access_token" = Return (VStr "tok-1") /\
    hist cached = (h' ++ [EvNow])%list /\
    token (st cached) = VStr "tok-1" /\
    token_expiry (st cached) = Some (env_now calm h' + one_hour).
Proof.
  split.
  - apply (proj1 (get_token_reuses_or_reacquires calm cached)).
    reflexivity.
  - destruct (proj2 (get_token_reuses_or_reacquires calm fresh) eq_refl)
      as [Hret _].
    exact (Hret (VStr "tok-1") cached eq_refl).
Defined.

(* ================================================================== *)
(** ** Unknown tools and unknown methods *)

Lemma assoc_not_in {A} (l : list (string * A)) (k : string) :
  ~ In k (map fst l) -> assoc l k = None.
Proof.
  induction l as [|[k' a] l IH]; simpl; intros H.
  - reflexivity.
  - destruct (String.eqb_spec k' k) as [->|_].
    + exfalso. apply H. now left.
    + apply IH. intros Hin. apply H. now right.
Qed.

(** The branches of the JSON-RPC endpoint that build an error.  A
    [tools/call] request with [params] whose [name] is hashable (a
    string, a number, a boolean, null, or absent) and names no registered
    tool is answered with the JSON-RPC error -32601
    ["Tool not found: <name>"], and no handler runs: nothing is recorded
    and the state is untouched.  A request whose method is none of
    [initialize], [tools/list], [tools/call] is answered with the error
    -32601 ["Unknown method: <method>"]. *)
Theorem unknown_tool_and_unknown_method
  (env : Env) (request : MCPRequest) (s : Sys) :
  (forall (d : pydict),
     req_method request = "tools/call" ->
     req_params request = Some d ->
     tools_lookup env (dict_get_default d "name" VNone) = Return None ->
     mcp_message env request s
       = (Return (rpc_error (req_id request) (-32601)
                    ("Tool not found: " ++
                     fmt env (dict_get_default d "name" VNone))), s))
  /\
  (req_method request <> "initialize" ->
   req_method request <> "tools/list" ->
   req_method request <> "tools/call" ->
   mcp_message env request s
     = (Return (rpc_error (req_id request) (-32601)
                  ("Unknown method: " ++ req_method request)), s)).
Proof.
  split.
  - intros d Hm Hp Hlookup.
    unfold mcp_message. rewrite Hm, Hp. cbn [String.eqb Ascii.eqb Bool.eqb].
    unfold bind, lift, params_get. rewrite Hlookup. reflexivity.
  - intros H1 H2 H3. unfold mcp_message.
    destruct (String.eqb_spec (req_method request) "initialize");
      [contradiction|].
    destruct (String.eqb_spec (req_method request) "tools/list");
      [contradiction|].
    destruct (String.eqb_spec (req_method request) "tools/call");
      [contradiction|].
    reflexivity.
Qed.

Lemma unknown_tool_and_unknown_method_witness :
  mcp_message calm
    (mkMCPRequest "2.0" (Some 7) "tools/call"
       (Some [("name", VStr "nonexistent")])) fresh
    = (Return (rpc_error (Some 7) (-32601) "Tool not found: nonexistent"),
       fresh)
  /\
  mcp_message calm
    (mkMCPRequest "2.0" (Some 9) "tools/call" (Some [("name", VInt 5)])) fresh
    = (Return (rpc_error (Some 9) (-32601) "Tool not found: 5"), fresh)
  /\
  mcp_message calm (mkMCPRequest "2.0" (Some 8) "resources/list" None) fresh
    = (Return (rpc_error (Some 8) (-32601) "Unknown method: resources/list"),
       fresh).
Proof.
  split; [|split].
  - apply (proj1 (unknown_tool_and_unknown_method calm
                    (mkMCPRequest "2.0" (Some 7) "tools/call"
                       (Some [("name", VStr "nonexistent")])) fresh)
             [("name", VStr "nonexistent")]); reflexivity.
  - apply (proj1 (unknown_tool_and_unknown_method calm
                    (mkMCPRequest "2.0" (Some 9) "tools/call"
                       (Some [("name", VInt 5)])) fresh)
             [("name", VInt 5)]); reflexivity.
  - apply (proj2 (unknown_tool_and_unknown_method calm
                    (mkMCPRequest "2.0" (Some 8) "resources/list" None)
                    fresh)); discriminate.
Defined.

(* ================================================================== *)
(** ** Authenticated calls *)

(** *** Registration *)

(** C5, as the code has it: [register_node] never raises, and the flag
    [registered] is set exactly when the registration POST is answered
    with status 200; with any other answer, or when the token or the
    transport fails, the flag is left as it was (false at start-up). *)
Theorem register_node_sets_flag_on_200 (env : Env) (s : Sys) :
  exists s',
    register_node env s = (Return tt, s') /\
    registered (st s') =
      registered (st s) || is_200 (reply_to env (register_request env) s).
Proof.
  pose proof (tame_get_token env registered
                (fun _ _ => eq_refl) (fun _ _ => eq_refl) s) as [Hreg _].
  unfold register_node, try_except, bind, reply_to, is_200.
  destruct (get_token env s) as [[tok|e] s1]; simpl in Hreg.
  - unfold http_send at 1.
    destruct (env_http env (hist s1) (register_request env tok)) as [resp|e].
    + destruct (status_code resp =? 200); cbn.
      * eexists; split; [reflexivity|]. cbn. now rewrite orb_true_r.
      * eexists; split; [reflexivity|]. cbn. now rewrite orb_false_r.
    + eexists; split; [reflexivity|]. cbn. now rewrite orb_false_r.
  - eexists; split; [reflexivity|]. cbn. now rewrite orb_false_r.
Qed.

(** The POST is acknowledged with the success status 201, and the node
    is still not registered. *)
Lemma register_node_ignores_201 : ~ registers_on_any_2xx created_world fresh.
Proof.
  intros (s' & Hrun & Hiff).
  assert (Hs' : s' = snd (register_node created_world fresh))
    by (rewrite Hrun; reflexivity).
  assert (Hflag : registered (st s') = true).
  { apply Hiff. eexists. split; [reflexivity|]. cbn. lia. }
  rewrite Hs' in Hflag. vm_compute in Hflag. discriminate Hflag.
Qed.

(** *** The last-sync stamp *)

Lemma poll_once_split env s :
  poll_once env s =
  match poll_fetch env s with
  | (Return _, s0) => (Return tt, stamp env s0)
  | (Raise e, s0) => (Raise e, s0)
  end.
Proof.
  unfold poll_once, poll_fetch, bind.
  destruct (get_token env s) as [[tok|e] s1]; [|reflexivity].
  destruct (http_send env (pending_request env tok) s1) as [[resp|e] s2];
    [|reflexivity].
  destruct (status_code resp =? 200).
  - destruct (lift (resp_json resp) s2) as [[jobs|e] s3]; [|reflexivity].
    destruct (lift (py_iter jobs) s3) as [[items|e] s4]; [|reflexivity].
    destruct (process_jobs env items s4) as [[[]|e] s5]; reflexivity.
  - reflexivity.
Qed.

Lemma tame_poll_fetch env : tame last_sync (poll_fetch env).
Proof.
  unfold poll_fetch. tame_tac;
    first [ apply tame_get_token; reflexivity
          | apply tame_process_jobs; reflexivity ].
Qed.

(** The state at the end of a turn is the one [poll_once] leaves. *)
Lemma poll_iteration_st env s :
  st (snd (poll_iteration env s)) = st (snd (poll_once env s)).
Proof.
  unfold poll_iteration, bind, try_except.
  destruct (poll_once env s) as [[[]|e] s1]; reflexivity.
Qed.

(** C6, as the code has it: the stamp [last_sync] is set, to the clock
    read at the end of the turn, in every turn whose [try] block runs to
    its end, and is left alone in every turn that raises.  The block runs
    to its end whenever the pending-jobs request is answered with a status
    other than 200, whenever it is answered with 200 and an empty list of
    jobs, and whenever it is answered with 200 and a list of jobs that is
    decoded and processed without raising; it raises whenever the token
    cannot be obtained or the request itself fails. *)
Theorem last_sync_updated_when_turn_completes (env : Env) (s : Sys) :
  let s' := snd (poll_iteration env s) in
  (forall s1,
     poll_once env s = (Return tt, s1) ->
     exists h,
       hist s1 = (h ++ [EvNow])%list /\
       last_sync (st s') = Some (isoformat env (env_now env h)))
  /\
  (forall e s1,
     poll_once env s = (Raise e, s1) ->
     last_sync (st s') = last_sync (st s))
  /\
  (forall resp,
     reply_to env (pending_request env) s = Some resp ->
     status_code resp <> 200 \/ resp_json resp = Return (VList []) ->
     exists s1, poll_once env s = (Return tt, s1))
  /\
  (reply_to env (pending_request env) s = None ->
   exists e s1, poll_once env s = (Raise e, s1))
  /\
  (forall resp jobs items tok s1 s2,
     get_token env s = (Return tok, s1) ->
     env_http env (hist s1) (pending_request env tok) = Return resp ->
     status_code resp = 200 ->
     resp_json resp = Return jobs ->
     py_iter jobs = Return items ->
     process_jobs env items (record (EvHttp (pending_request env tok)) s1)
       = (Return tt, s2) ->
     poll_once env s = (Return tt, stamp env s2) /\
     last_sync (st s') = Some (isoformat env (env_now env (hist s2)))).
Proof.
  cbv zeta. rewrite poll_iteration_st.
  split; [|split; [|split; [|split]]].
  - intros s1 H. rewrite H. cbn [snd].
    rewrite poll_once_split in H.
    destruct (poll_fetch env s) as [[[]|e] s0]; [|discriminate H].
    injection H as <-. exists (hist s0). split; reflexivity.
  - intros e s1 H. rewrite H. cbn [snd].
    rewrite poll_once_split in H.
    destruct (tame_poll_fetch env s) as [Hkeep _].
    destruct (poll_fetch env s) as [[[]|e0] s0]; [discriminate H|].
    injection H as _ <-. exact Hkeep.
  - intros resp Hreply Hcase. unfold reply_to in Hreply.
    unfold poll_once, bind.
    destruct (get_token env s) as [[tok|e] s1]; [|discriminate Hreply].
    unfold http_send at 1.
    destruct (env_http env (hist s1) (pending_request env tok)) as [r|e];
      [|discriminate Hreply].
    injection Hreply as ->.
    destruct (Z.eqb_spec (status_code resp) 200) as [H200|H200].
    + destruct Hcase as [Hne|Hjson]; [contradiction|].
      rewrite Hjson. eexists. reflexivity.
    + eexists. reflexivity.
  - intros Hreply. unfold reply_to in Hreply.
    unfold poll_once, bind.
    destruct (get_token env s) as [[tok|e] s1]; [|eauto].
    unfold http_send at 1.
    destruct (env_http env (hist s1) (pending_request env tok)) as [r|e];
      [discriminate Hreply|eauto].
  - intros resp jobs items tok s1 s2 Htok Hget H200 Hjson Hiter Hjobs.
    assert (Hrun : poll_once env s = (Return tt, stamp env s2)).
    { unfold poll_once, bind. rewrite Htok.
      unfold http_send at 1. rewrite Hget, H200. cbn [Z.eqb Pos.eqb].
      unfold lift. rewrite Hjson, Hiter, Hjobs. reflexivity. }
    split; [exact Hrun|]. rewrite Hrun. reflexivity.
Qed.

Lemma last_sync_updated_when_turn_completes_witness :
  exists s2,
    process_jobs busy_world [echo_entry]
      (record (EvHttp (pending_request busy_world (VStr "tok-1")))
         (snd (get_token busy_world (active fresh))))
      = (Return tt, s2) /\
    jobs_processed (st s2) = 1 /\
    poll_once busy_world (active fresh) = (Return tt, stamp busy_world s2) /\
    last_sync (st (snd (poll_iteration busy_world (active fresh))))
      = Some (isoformat busy_world (env_now busy_world (hist s2))).
Proof.
  eexists. split; [reflexivity|]. split; [reflexivity|].
  destruct (last_sync_updated_when_turn_completes busy_world (active fresh))
    as (_ & _ & _ & _ & Hjobs).
  apply (Hjobs (status_reply 200 (VList [echo_entry])) (VList [echo_entry])
           [echo_entry] (VStr "tok-1")
           (snd (get_token busy_world (active fresh))));
    reflexivity.
Defined.

(** The poll is answered with status 500 and the stamp is set all the
    same. *)
Lemma last_sync_set_after_500 :
  ~ last_sync_tracks_success failing_world (active fresh).
Proof.
  intros [Hto _].
  assert (H : is_200 (reply_to failing_world
                        (pending_request failing_world) (active fresh))
              = true).
  { apply Hto. vm_compute. discriminate. }
  vm_compute in H. discriminate H.
Qed.

(* ================================================================== *)
(** ** Dispatching a job *)

Lemma process_job_steps env job s :
  process_job env job s =
  match run_tool env job (record (processing_banner job) s) with
  | (Return result, s1) =>
      try_except (report_result env job result)
        (fun e => print ("Failed to report result: " ++ exn_msg e)) s1
  | (Raise e, s1) => (Raise e, s1)
  end.
Proof. reflexivity. Qed.

(** *** The processed-jobs counter *)

(** C3, as the code has it: for a job whose handler step yields a
    result, [process_job] returns, and the counter is incremented, once,
    exactly when the token was obtained and the report POST came back with
    a response, of whatever status, the POST being then the last thing
    that happened; when the token or the POST raises the counter is left
    as it was and the last thing that happened is the notice
    ["Failed to report result: <message>"] carrying the message of the
    exception. *)
Theorem jobs_processed_counts_answered_reports
  (env : Env) (job : HiveJob) (s : Sys) (result : pyval) (s1 : Sys) :
  run_tool env job (record (processing_banner job) s) = (Return result, s1) ->
  exists s',
    process_job env job s = (Return tt, s') /\
    jobs_processed (st s') =
      jobs_processed (st s) +
      match reply_to env (fun tok => result_request env tok job result) s1 with
      | Some _ => 1
      | None => 0
      end /\
    match get_token env s1 with
    | (Return tok, s2) =>
        match env_http env (hist s2) (result_request env tok job result) with
        | Return _ =>
            hist s' =
              (hist s2 ++ [EvHttp (result_request env tok job result)])%list
        | Raise e =>
            hist s' =
              (hist s2 ++
               [EvHttp (result_request env tok job result);
                EvPrint ("Failed to report result: " ++ exn_msg e)])%list
        end
    | (Raise e, s2) =>
        hist s' =
          (hist s2 ++ [EvPrint ("Failed to report result: " ++ exn_msg e)])
          %list
    end.
Proof.
  intros Hrun.
  pose proof (tame_run_tool env jobs_processed job
                (record (processing_banner job) s)) as [Hkeep1 _].
  rewrite Hrun in Hkeep1. cbn in Hkeep1.
  pose proof (tame_get_token env jobs_processed
                (fun _ _ => eq_refl) (fun _ _ => eq_refl) s1) as [Hkeep2 _].
  rewrite process_job_steps, Hrun.
  unfold try_except, report_result, reply_to, bind.
  destruct (get_token env s1) as [[tok|e] s2]; cbn in Hkeep2.
  - unfold http_send at 1.
    destruct (env_http env (hist s2) (result_request env tok job result))
      as [resp|e].
    + eexists. split; [reflexivity|]. cbn. split; [lia|reflexivity].
    + eexists. split; [reflexivity|]. cbn. split; [lia|].
      now rewrite <- app_assoc.
  - eexists. split; [reflexivity|]. cbn. split; [lia|reflexivity].
Qed.

Lemma jobs_processed_counts_answered_reports_witness :
  (exists s',
     process_job calm echo_job fresh = (Return tt, s') /\
     jobs_processed (st s') = 0 + 1 /\
     hist s' =
       (hist (snd (get_token calm
                     (snd (run_tool calm echo_job
                             (record (processing_banner echo_job) fresh)))))
        ++ [EvHttp (result_request calm (VStr "tok-1") echo_job echo_result)])
       %list) /\
  (exists s',
     process_job unreachable_world echo_job fresh = (Return tt, s') /\
     jobs_processed (st s') = 0 + 0 /\
     hist s' =
       (hist (snd (get_token unreachable_world
                     (snd (run_tool unreachable_world echo_job
                             (record (processing_banner echo_job) fresh)))))
        ++ [EvHttp (result_request unreachable_world (VStr "tok-1")
                      echo_job echo_result);
            EvPrint "Failed to report result: All connection attempts failed"])
       %list).
Proof.
  split.
  - exact (jobs_processed_counts_answered_reports calm echo_job fresh
             echo_result _ eq_refl).
  - exact (jobs_processed_counts_answered_reports unreachable_world echo_job
             fresh echo_result _ eq_refl).
Defined.

(** The report is attempted, the transport fails, and the job is not
    counted. *)
Lemma failed_report_is_not_counted :
  ~ counted_after_attempt unreachable_world echo_job fresh.
Proof.
  intros H.
  specialize (H (snd (process_job unreachable_world echo_job fresh))
                (VStr "tok-1") echo_result eq_refl).
  assert (Hin : In (EvHttp (result_request unreachable_world (VStr "tok-1")
                              echo_job echo_result))
                   (hist (snd (process_job unreachable_world echo_job fresh)))).
  { vm_compute. do 5 right. left. reflexivity. }
  specialize (H Hin). vm_compute in H. discriminate H.
Qed.

(** *** The direct push endpoint *)

(** C2, as the code has it: whenever the push endpoint answers, the
    answer is the acceptance acknowledgment, and it comes after the job
    has been processed to the end: the handler step has yielded its
    result, and the history then ends either with the report POST for that
    result, the job being counted, or with the notice that the report
    failed. *)
Theorem invoke_acknowledges_after_processing
  (env : Env) (job : HiveJob) (s : Sys) (v : pyval) (s' : Sys) :
  invoke_from_railway env job s = (Return v, s') ->
  v = accepted job /\
  exists result s1 more,
    run_tool env job (record (processing_banner job) s) = (Return result, s1) /\
    hist s' = (hist s1 ++ more)%list /\
    ((exists tok h,
        more = (h ++ [EvHttp (result_request env tok job result)])%list /\
        jobs_processed (st s') = jobs_processed (st s1) + 1)
     \/
     (exists msg h,
        more = (h ++ [EvPrint ("Failed to report result: " ++ msg)])%list)).
Proof.
  unfold invoke_from_railway, bind at 1.
  rewrite process_job_steps.
  destruct (run_tool env job (record (processing_banner job) s))
    as [[result|e] s1]; [|discriminate].
  pose proof (tame_get_token env jobs_processed
                (fun _ _ => eq_refl) (fun _ _ => eq_refl) s1)
    as (Hkeep & h & Hh & _).
  unfold try_except, report_result, bind.
  destruct (get_token env s1) as [[tok|e] s2]; cbn in Hkeep, Hh.
  - unfold http_send at 1.
    destruct (env_http env (hist s2) (result_request env tok job result))
      as [resp|e].
    + intros [= <- <-]. split; [reflexivity|].
      exists result, s1, (h ++ [EvHttp (result_request env tok job result)])%list.
      split; [reflexivity|]. cbn. rewrite Hh, app_assoc.
      split; [reflexivity|]. left. exists tok, h.
      split; [reflexivity | lia].
    + intros [= <- <-]. split; [reflexivity|].
      exists result, s1,
        ((h ++ [EvHttp (result_request env tok job result)]) ++
         [EvPrint ("Failed to report result: " ++ exn_msg e)])%list.
      split; [reflexivity|]. cbn. rewrite Hh, !app_assoc.
      split; [reflexivity|]. right. eexists; eexists; reflexivity.
  - intros [= <- <-]. split; [reflexivity|].
    exists result, s1,
      (h ++ [EvPrint ("Failed to report result: " ++ exn_msg e)])%list.
    split; [reflexivity|]. cbn. rewrite Hh, app_assoc.
    split; [reflexivity|]. right. eexists; eexists; reflexivity.
Qed.

Lemma invoke_acknowledges_after_processing_witness :
  exists result s1 more,
    run_tool calm echo_job (record (processing_banner echo_job) fresh)
      = (Return result, s1) /\
    hist (snd (invoke_from_railway calm echo_job fresh))
      = (hist s1 ++ more)%list /\
    ((exists tok h,
        more = (h ++ [EvHttp (result_request calm tok echo_job result)])%list /\
        jobs_processed (st (snd (invoke_from_railway calm echo_job fresh)))
          = jobs_processed (st s1) + 1)
     \/
     (exists msg h,
        more = (h ++ [EvPrint ("Failed to report result: " ++ msg)])%list)).
Proof.
  exact (proj2 (invoke_acknowledges_after_processing calm echo_job fresh
                  (accepted echo_job)
                  (snd (invoke_from_railway calm echo_job fresh)) eq_refl)).
Defined.

(** When the acknowledgment is returned, the command has run and its
    result has been posted. *)
Lemma acknowledgment_follows_report :
  ~ acknowledged_before_report calm echo_job fresh.
Proof.
  intros (s' & Hrun & Hnot).
  assert (Hs' : s' = snd (invoke_from_railway calm echo_job fresh))
    by (rewrite Hrun; reflexivity).
  apply (Hnot (VStr "tok-1") echo_result).
  rewrite Hs'. vm_compute. do 5 right. left. reflexivity.
Qed.

(* ================================================================== *)
(** ** Where failures escape *)

(** C1 at its failing inputs: in every world and from every state, a
    job for [local_exec] without the required [command], or with a
    [command] that is a number, makes [process_job] raise; nothing is
    reported for the job, and through the push endpoint the exception
    reaches the framework as an unhandled fault. *)
Theorem process_job_raises_on_bad_arguments (env : Env) (s : Sys) :
  process_job env (mkHiveJob "job-1" "local_exec" [] None) s
    = (Raise missing_command,
       record (processing_banner (mkHiveJob "job-1" "local_exec" [] None)) s)
  /\
  process_job env
    (mkHiveJob "job-2" "local_exec" [("command", VInt 5)] None) s
    = (Raise not_iterable,
       record (processing_banner
                 (mkHiveJob "job-2" "local_exec" [("command", VInt 5)] None)) s)
  /\
  respond (fst (invoke_from_railway env
                  (mkHiveJob "job-1" "local_exec" [] None) s))
    = Unhandled missing_command.
Proof. repeat split. Qed.

(** C4 at its failing inputs: in every world and from every state, a
    [tools/call] request without [params], a [tools/call] request whose
    arguments do not fit the handler, and a direct invocation whose
    arguments do not fit the handler, all end in an unhandled fault. *)
Theorem synchronous_requests_can_fault (env : Env) (s : Sys) :
  respond (fst (mcp_message env
                  (mkMCPRequest "2.0" (Some 1) "tools/call" None) s))
    = Unhandled no_get
  /\
  respond (fst (mcp_message env
                  (mkMCPRequest "2.0" (Some 2) "tools/call"
                     (Some [("name", VStr "local_exec");
                            ("arguments", VDict [])])) s))
    = Unhandled missing_command
  /\
  respond (fst (invoke_tool env (mkToolCall "local_exec" []) s))
    = Unhandled missing_command.
Proof. repeat split. Qed.

(** C7 at its failing input: the token endpoint answers the exchange
    with a JSON object that has no [access_token] (here an OAuth error of
    status 400).  No credential has been acquired, and yet [get_token]
    returns, with [None], caching it under a fresh expiry, and the
    authenticated call goes on: [register_node] sends the registration
    POST with the bearer [None]. *)
Theorem authenticated_call_proceeds_without_credential :
  credential_cached tokenless_world fresh = false /\
  fst (get_token tokenless_world fresh) = Return VNone /\
  token (st (snd (get_token tokenless_world fresh))) = VNone /\
  token_expiry (st (snd (get_token tokenless_world fresh)))
    = Some (2000000 + one_hour) /\
  In (EvHttp (register_request tokenless_world VNone))
     (hist (snd (register_node tokenless_world fresh))).
Proof.
  repeat split. vm_compute. do 3 right. left. reflexivity.
Qed.

(** C8 at its failing inputs: in every world and from every state, a
    [tools/call] request whose [name] is a list or an object, which names
    no registered tool, is not answered with the error -32601: the test
    of the registry raises [TypeError], and the exception reaches the
    framework as an unhandled fault. *)
Theorem tools_call_with_unhashable_name_faults (env : Env) (s : Sys) :
  mcp_message env
    (mkMCPRequest "2.0" (Some 1) "tools/call"
       (Some [("name", VList [VStr "x"])])) s
    = (Raise unhashable_list, s)
  /\
  mcp_message env
    (mkMCPRequest "2.0" (Some 2) "tools/call"
       (Some [("name", VDict [("tool", VStr "x")])])) s
    = (Raise unhashable_dict, s)
  /\
  respond (fst (mcp_message env
                  (mkMCPRequest "2.0" (Some 1) "tools/call"
                     (Some [("name", VList [VStr "x"])])) s))
    = Unhandled unhashable_list.
Proof. repeat split. Qed.

(* ================================================================== *)
(** ** The handlers *)

Lemma str_take_length (n : nat) (s : string) :
  (char_length (str_take n s) <= n)%nat.
Proof.
  revert n. induction s as [|c s IH]; intros n; simpl; [lia|].
  destruct (is_continuation c) eqn:Hc; simpl.
  - rewrite Hc. apply IH.
  - destruct n as [|n]; simpl; [lia|]. rewrite Hc. specialize (IH n). lia.
Qed.

Lemma str_take_prefix (n : nat) (s : string) :
  starts_with (str_take n s) s = true.
Proof.
  revert n. induction s as [|c s IH]; intros n; simpl; [reflexivity|].
  destruct (is_continuation c); simpl.
  - now rewrite Ascii.eqb_refl, IH.
  - destruct n as [|n]; simpl; [reflexivity|].
    now rewrite Ascii.eqb_refl, IH.
Qed.

Lemma str_take_all (n : nat) (s : string) :
  (char_length s <= n)%nat -> str_take n s = s.
Proof.
  revert n. induction s as [|c s IH]; intros n; simpl; [reflexivity|].
  destruct (is_continuation c); intros H.
  - f_equal. now apply IH.
  - destruct n as [|n]; [lia|]. f_equal. apply IH. lia.
Qed.

Example chars_of_a_string :
  str_chars "héllo" = ["h"; "é"; "l"; "l"; "o"].
Proof. reflexivity. Qed.

Example take_counts_characters :
  str_take 2 "héllo" = "hé" /\ char_length "héllo" = 5%nat /\
  String.length "héllo" = 6%nat.
Proof. repeat split. Qed.

(** The bodies of the handlers never raise: each of [tool_bark_tts],
    [tool_n8n_trigger] and [tool_filesystem] answers with a dictionary for
    all arguments, and so does [tool_local_exec] for every command that is
    a string. *)
Lemma handler_bodies_answer (env : Env) (s : Sys) :
  (forall text voice,
     exists d s', tool_bark_tts env text voice s = (Return (VDict d), s')) /\
  (forall workflow payload,
     exists d s',
       tool_n8n_trigger env workflow payload s = (Return (VDict d), s')) /\
  (forall action path content,
     exists d s',
       tool_filesystem env action path content s = (Return (VDict d), s')) /\
  (forall command safe_mode,
     exists d s',
       tool_local_exec env (VStr command) safe_mode s = (Return (VDict d), s')).
Proof.
  repeat split.
  - intros text voice.
    unfold tool_bark_tts, try_except, bind, subprocess_run.
    destruct (env_run env (hist s) _) as [r|e]; [|eexists; eexists; reflexivity].
    destruct (negb (str_contains "ok" (stdout r)));
      [eexists; eexists; reflexivity|].
    unfold datetime_now. cbn [hist record].
    destruct (env_run env _ _) as [r2|e]; eexists; eexists; reflexivity.
  - intros workflow payload.
    unfold tool_n8n_trigger, try_except, bind, http_send, lift.
    destruct (env_http env (hist s) _) as [resp|e];
      [|eexists; eexists; reflexivity].
    destruct (resp_json resp); eexists; eexists; reflexivity.
  - intros action path content.
    unfold tool_filesystem, try_except, bind,
      file_read, file_write, os_listdir.
    destruct (py_eq_str action "read").
    { destruct (env_read env (hist s) path); eexists; eexists; reflexivity. }
    destruct (py_eq_str action "write").
    { destruct (env_write env (hist s) path content);
        eexists; eexists; reflexivity. }
    destruct (py_eq_str action "list").
    { destruct (env_listdir env (hist s) path);
        eexists; eexists; reflexivity. }
    eexists; eexists; reflexivity.
  - intros command safe_mode.
    unfold tool_local_exec, bind. rewrite any_in_str.
    assert (Hb : exists b,
              (if py_truthy safe_mode
               then lift (Return (existsb (fun d => str_contains d command)
                                    dangerous))
               else ret false) s = (Return b, s)).
    { destruct (py_truthy safe_mode); eexists; reflexivity. }
    destruct Hb as [b ->].
    destruct b; [eexists; eexists; reflexivity|].
    unfold try_except, bind, subprocess_shell.
    destruct (env_shell env (hist s) (VStr command)) as [r|e];
      [eexists; eexists; reflexivity|].
    destruct (is_timeout e); eexists; eexists; reflexivity.
Qed.

Opaque str_take.

(** X2: What [tool_local_exec] passes on of a command's output is a prefix
    of what the command printed, of at most 10000 characters for the
    standard output and 2000 for the standard error, characters being
    counted as Python counts them, whatever their number of bytes; an
    output of at most 10000 characters is passed on whole. *)
Theorem local_exec_output_is_truncated
  (env : Env) (command safe_mode : pyval) (s s' : Sys) (d : pydict)
  (out err : string) :
  tool_local_exec env command safe_mode s = (Return (VDict d), s') ->
  dict_get d "stdout" = Some (VStr out) ->
  dict_get d "stderr" = Some (VStr err) ->
  exists p,
    env_shell env (hist s) command = Return p /\
    starts_with out (stdout p) = true /\
    starts_with err (stderr p) = true /\
    Z.of_nat (char_length out) <= 10000 /\
    Z.of_nat (char_length err) <= 2000 /\
    (Z.of_nat (char_length (stdout p)) <= 10000 -> out = stdout p).
Proof.
  unfold tool_local_exec, bind.
  destruct ((if py_truthy safe_mode
             then lift (any_in dangerous command) else ret false) s)
    as [[b|e] s0] eqn:Hcheck; [|discriminate].
  assert (Hs0 : s0 = s).
  { destruct (py_truthy safe_mode); unfold lift, ret in Hcheck;
      now injection Hcheck. }
  subst s0. destruct b.
  - intros [= <- <-] Hout. cbn in Hout. discriminate Hout.
  - unfold try_except, bind, subprocess_shell.
    destruct (env_shell env (hist s) command) as [p|e].
    + intros Hret Hout Herr. injection Hret as <- <-.
      cbn in Hout, Herr. injection Hout as <-. injection Herr as <-.
      exists p. split; [reflexivity|].
      split; [apply str_take_prefix|]. split; [apply str_take_prefix|].
      pose proof (str_take_length (Pos.to_nat 10000) (stdout p)) as Hlo.
      pose proof (str_take_length (Pos.to_nat 2000) (stderr p)) as Hle.
      split; [lia|]. split; [lia|].
      intros Hshort. apply str_take_all. lia.
    + destruct (is_timeout e); intros [= <- <-] Hout;
        cbn in Hout; discriminate Hout.
Qed.

Transparent str_take.

Lemma local_exec_output_is_truncated_witness :
  exists p,
    env_shell chatty_world (hist fresh) (VStr "echo héllo") = Return p /\
    starts_with "héllo" (stdout p) = true /\
    starts_with "warning" (stderr p) = true /\
    Z.of_nat (char_length "héllo") <= 10000 /\
    Z.of_nat (char_length "warning") <= 2000 /\
    (Z.of_nat (char_length (stdout p)) <= 10000 -> "héllo" = stdout p).
Proof.
  apply (local_exec_output_is_truncated chatty_world (VStr "echo héllo")
           (VBool true) fresh
           (snd (tool_local_exec chatty_world (VStr "echo héllo")
                   (VBool true) fresh))
           [("stdout", VStr "héllo"); ("stderr", VStr "warning");
            ("exit_code", VInt 0)]);
    reflexivity.
Defined.

Opaque str_take firstn.

(** X3: What [tool_filesystem] passes on is bounded: the text of a read is
    a prefix of the file of at most 50000 characters, counted as Python
    counts them, and a listing is the first 100 entries of the directory
    at most. *)
Theorem filesystem_answers_are_bounded
  (env : Env) (action path content : pyval) (s s' : Sys) (d : pydict) :
  tool_filesystem env action path content s = (Return (VDict d), s') ->
  (forall text,
     dict_get d "content" = Some (VStr text) ->
     exists whole,
       env_read env (hist s) path = Return whole /\
       starts_with text whole = true /\
       Z.of_nat (char_length text) <= 50000) /\
  (forall items,
     dict_get d "items" = Some (VList items) ->
     exists names rest,
       env_listdir env (hist s) path = Return names /\
       map VStr names = (items ++ rest)%list /\
       Z.of_nat (List.length items) <= 100).
Proof.
  unfold tool_filesystem, try_except, bind, file_read, file_write, os_listdir.
  destruct (py_eq_str action "read").
  { destruct (env_read env (hist s) path) as [whole|e]; intros [= <- <-];
      split; intros ? H; cbn in H; try discriminate H.
    injection H as <-. exists whole. split; [reflexivity|].
    split; [apply str_take_prefix|].
    pose proof (str_take_length (Pos.to_nat 50000) whole). lia. }
  destruct (py_eq_str action "write").
  { destruct (env_write env (hist s) path content); intros [= <- <-];
      split; intros ? H; cbn in H; discriminate H. }
  destruct (py_eq_str action "list").
  { destruct (env_listdir env (hist s) path) as [names|e]; intros [= <- <-];
      split; intros ? H; cbn in H; try discriminate H.
    injection H as <-.
    exists names, (map VStr (skipn 100 names)). split; [reflexivity|].
    split.
    - rewrite <- map_app, firstn_skipn. reflexivity.
    - rewrite length_map.
      pose proof (firstn_le_length 100 names). lia. }
  intros [= <- <-]. split; intros ? H; cbn in H; discriminate H.
Qed.

Transparent str_take firstn.

Lemma filesystem_answers_are_bounded_witness :
  (exists whole,
     env_read chatty_world (hist fresh) (VStr "/etc/hostname")
       = Return whole /\
     starts_with "contents" whole = true /\
     Z.of_nat (char_length "contents") <= 50000) /\
  (exists names rest,
     env_listdir chatty_world (hist fresh) (VStr "/tmp") = Return names /\
     map VStr names = ([VStr "a"; VStr "b"] ++ rest)%list /\
     Z.of_nat (List.length [VStr "a"; VStr "b"]) <= 100).
Proof.
  split.
  - apply (proj1 (filesystem_answers_are_bounded chatty_world (VStr "read")
                    (VStr "/etc/hostname") VNone fresh
                    (record (EvRead (VStr "/etc/hostname")) fresh)
                    [("content", VStr "contents")] eq_refl)
             "contents" eq_refl).
  - apply (proj2 (filesystem_answers_are_bounded chatty_world (VStr "list")
                    (VStr "/tmp") VNone fresh
                    (record (EvListdir (VStr "/tmp")) fresh)
                    [("items", VList [VStr "a"; VStr "b"])] eq_refl)
             [VStr "a"; VStr "b"] eq_refl).
Defined.

Lemma harmless_not_found (command : string) :
  harmless command ->
  existsb (fun d => str_contains d command) dangerous = false.
Proof.
  intros H. destruct (existsb _ dangerous) eqn:E; [|reflexivity].
  apply existsb_exists in E as (d & Hd & Hc).
  apply str_contains_iff in Hc as (pre & post & Hc).
  exfalso. exact (H d pre post Hd Hc).
Qed.

(** X4: [tool_local_exec] hands the command to the shell, once and
    unchanged, whenever [safe_mode] is falsy (whatever the command
    contains) and whenever the command contains none of the dangerous
    substrings. *)
Theorem local_exec_runs_unblocked_commands
  (env : Env) (command : string) (safe_mode : pyval) (s : Sys) :
  py_truthy safe_mode = false \/ harmless command ->
  exists d,
    tool_local_exec env (VStr command) safe_mode s
      = (Return (VDict d), record (EvShell (VStr command)) s) /\
    dict_get d "command" = None.
Proof.
  intros Hfree.
  assert (Hcheck :
            (if py_truthy safe_mode
             then lift (any_in dangerous (VStr command))
             else ret false) s = (Return false, s)).
  { destruct Hfree as [-> | Hh]; [reflexivity|].
    rewrite any_in_str, (harmless_not_found _ Hh).
    destruct (py_truthy safe_mode); reflexivity. }
  unfold tool_local_exec, bind. rewrite Hcheck.
  unfold try_except, bind, subprocess_shell.
  destruct (env_shell env (hist s) (VStr command)) as [p|e].
  - eexists. split; reflexivity.
  - destruct (is_timeout e); eexists; split; reflexivity.
Qed.

Lemma local_exec_runs_unblocked_commands_witness :
  exists d,
    tool_local_exec calm (VStr "rm -rf /") (VBool false) fresh
      = (Return (VDict d), record (EvShell (VStr "rm -rf /")) fresh) /\
    dict_get d "command" = None.
Proof.
  apply (local_exec_runs_unblocked_commands calm "rm -rf /" (VBool false)).
  left. reflexivity.
Defined.

Lemma py_eq_str_false (v : pyval) (name : string) :
  v <> VStr name -> py_eq_str v name = false.
Proof.
  destruct v; try reflexivity. simpl. intros H.
  destruct (String.eqb_spec s name) as [->|]; [congruence|reflexivity].
Qed.

(** X5: An action other than [read], [write] and [list] is refused by
    [tool_filesystem] with ["Unknown action: <action>"], and the file
    system is not touched. *)
Theorem filesystem_rejects_unknown_action
  (env : Env) (action path content : pyval) (s : Sys) :
  (forall name, In name ["read"; "write"; "list"] -> action <> VStr name) ->
  tool_filesystem env action path content s
    = (Return (error_dict ("Unknown action: " ++ fmt env action)), s).
Proof.
  intros H. unfold tool_filesystem, try_except.
  rewrite !py_eq_str_false by (apply H; simpl; auto).
  reflexivity.
Qed.

Lemma filesystem_rejects_unknown_action_witness :
  tool_filesystem calm (VStr "delete") (VStr "/tmp/x") VNone fresh
    = (Return (error_dict "Unknown action: delete"), fresh).
Proof.
  apply (filesystem_rejects_unknown_action calm (VStr "delete")).
  simpl. intros name [<-|[<-|[<-|[]]]]; discriminate.
Defined.

(* ================================================================== *)
(** ** Keyword arguments *)

Lemma filter_nil_iff {A} (f : A -> bool) (l : list A) :
  filter f l = [] <-> forall x, In x l -> f x = false.
Proof.
  induction l as [|a l IH]; simpl.
  - split; [intros _ x []|reflexivity].
  - destruct (f a) eqn:Ha; split.
    + discriminate.
    + intros H. specialize (H a (or_introl eq_refl)). congruence.
    + intros H x [<-|Hx]; [exact Ha|]. now apply IH.
    + intros H. apply IH. intros x Hx. apply H. now right.
Qed.

Lemma unexpected_keyword_none (sig : signature) (kw : pydict) :
  unexpected_keyword sig kw = None <->
  forall k v, In (k, v) kw -> has_param sig k = true.
Proof.
  unfold unexpected_keyword. split.
  - intros H k v Hin.
    destruct (find _ kw) as [p|] eqn:E; [discriminate|].
    pose proof (find_none _ _ E (k, v) Hin) as Hn. simpl in Hn.
    now apply negb_false_iff in Hn.
  - intros H. destruct (find _ kw) as [[k v]|] eqn:E; [|reflexivity].
    apply find_some in E as [Hin Hn]. simpl in Hn.
    rewrite (H k v Hin) in Hn. discriminate.
Qed.

Lemma missing_params_nil (sig : signature) (kw : pydict) :
  missing_params sig kw = [] <->
  forall p, In (p, None) sig -> dict_get kw p <> None.
Proof.
  unfold missing_params. split.
  - intros H p Hin Hnone.
    apply map_eq_nil in H.
    pose proof (proj1 (filter_nil_iff _ _) H (p, None) Hin) as Hf.
    simpl in Hf. rewrite Hnone in Hf. discriminate.
  - intros H.
    replace (filter _ sig) with (@nil (string * option pyval));
      [reflexivity|].
    symmetry. apply filter_nil_iff. intros [p [dflt|]] Hin; simpl.
    + reflexivity.
    + destruct (dict_get kw p) eqn:E; [reflexivity|].
      exfalso. exact (H p Hin E).
Qed.

(** The check of the keywords passes exactly when they fit the
    signature, and raises [TypeError] otherwise. *)
Lemma check_kwargs_fits (fname : string) (sig : signature) (kw : pydict) :
  (check_kwargs fname sig kw = Return tt <-> fits sig kw) /\
  (forall e, check_kwargs fname sig kw = Raise e -> exn_cls e = TypeError).
Proof.
  unfold check_kwargs, fits. split; [split|].
  - intros H.
    destruct (unexpected_keyword sig kw) eqn:Eu; [discriminate|].
    destruct (missing_params sig kw) eqn:Em; [|discriminate].
    split; [now apply unexpected_keyword_none | now apply missing_params_nil].
  - intros [Hu Hm].
    apply unexpected_keyword_none in Hu. apply missing_params_nil in Hm.
    now rewrite Hu, Hm.
  - intros e.
    destruct (unexpected_keyword sig kw); [now intros [= <-]|].
    destruct (missing_params sig kw); [discriminate | now intros [= <-]].
Qed.

Lemma call_fits_or_raises
  (fname : string) (sig : signature) (kw : pydict) (body : M pyval) (s : Sys) :
  (fits sig kw ->
   bind (lift (check_kwargs fname sig kw)) (fun _ => body) s = body s) /\
  (~ fits sig kw ->
   exists e,
     bind (lift (check_kwargs fname sig kw)) (fun _ => body) s = (Raise e, s) /\
     exn_cls e = TypeError).
Proof.
  destruct (check_kwargs_fits fname sig kw) as [Hiff Hcls].
  unfold bind, lift. split.
  - intros Hfit. apply Hiff in Hfit. now rewrite Hfit.
  - intros Hnot. destruct (check_kwargs fname sig kw) as [[]|e].
    + exfalso. apply Hnot, Hiff. reflexivity.
    + exists e. split; [reflexivity | now apply Hcls].
Qed.

(** X1: Calling a registered handler with keyword arguments: when the
    keywords fit its parameters (and, for [local_exec], the command is a
    string) the handler answers with a dictionary, whatever the world
    does; when they do not fit, the call raises [TypeError] before the
    handler has done anything. *)
Theorem registered_call_fits_or_raises
  (env : Env) (name : string) (t : Tool) (kw : pydict) (s : Sys) :
  tools_get env name = Some t ->
  (fits (signature_of name) kw ->
   (name = "local_exec" -> exists c, dict_get kw "command" = Some (VStr c)) ->
   exists d s', fn t kw s = (Return (VDict d), s')) /\
  (~ fits (signature_of name) kw ->
   exists e, fn t kw s = (Raise e, s) /\ exn_cls e = TypeError).
Proof.
  destruct (handler_bodies_answer env s) as (Hbark & Hn8n & Hfs & Hexec).
  unfold tools_get, TOOLS, signature_of. cbn [assoc].
  destruct (String.eqb_spec "bark_tts" name) as [<-|_].
  { intros [= <-]. cbn [fn String.eqb Ascii.eqb Bool.eqb]. unfold call_bark_tts.
    destruct (call_fits_or_raises "tool_bark_tts" sig_bark_tts kw
                (tool_bark_tts env (dict_get_default kw "text" VNone)
                   (dict_get_default kw "voice" (VStr "v2/en_speaker_6"))) s)
      as [Hyes Hno].
    split; [intros Hfit _; rewrite (Hyes Hfit); apply Hbark | exact Hno]. }
  destruct (String.eqb_spec "n8n_trigger" name) as [<-|_].
  { intros [= <-]. cbn [fn String.eqb Ascii.eqb Bool.eqb].
    unfold call_n8n_trigger.
    destruct (call_fits_or_raises "tool_n8n_trigger" sig_n8n_trigger kw
                (tool_n8n_trigger env (dict_get_default kw "workflow" VNone)
                   (dict_get_default kw "payload" (VDict []))) s)
      as [Hyes Hno].
    split; [intros Hfit _; rewrite (Hyes Hfit); apply Hn8n | exact Hno]. }
  destruct (String.eqb_spec "local_exec" name) as [<-|_].
  { intros [= <-]. cbn [fn String.eqb Ascii.eqb Bool.eqb].
    unfold call_local_exec.
    destruct (call_fits_or_raises "tool_local_exec" sig_local_exec kw
                (tool_local_exec env (dict_get_default kw "command" VNone)
                   (dict_get_default kw "safe_mode" (VBool true))) s)
      as [Hyes Hno].
    split; [|exact Hno].
    intros Hfit Hstr. destruct (Hstr eq_refl) as [c Hc].
    rewrite (Hyes Hfit). unfold dict_get_default at 1. rewrite Hc.
    apply Hexec. }
  destruct (String.eqb_spec "filesystem" name) as [<-|_].
  { intros [= <-]. cbn [fn String.eqb Ascii.eqb Bool.eqb].
    unfold call_filesystem.
    destruct (call_fits_or_raises "tool_filesystem" sig_filesystem kw
                (tool_filesystem env (dict_get_default kw "action" VNone)
                   (dict_get_default kw "path" VNone)
                   (dict_get_default kw "content" VNone)) s)
      as [Hyes Hno].
    split; [intros Hfit _; rewrite (Hyes Hfit); apply Hfs | exact Hno]. }
  discriminate.
Qed.

Lemma registered_call_fits_or_raises_witness :
  exists d s',
    call_filesystem calm [("action", VStr "list"); ("path", VStr "/tmp")]
      fresh = (Return (VDict d), s').
Proof.
  apply (proj1 (registered_call_fits_or_raises calm "filesystem"
                  (mkTool (call_filesystem calm) "Read/write/list filesystem"
                     [("action", VStr "read|write|list");
                      ("path", VStr "string");
                      ("content", VStr "string (for write)")])
                  [("action", VStr "list"); ("path", VStr "/tmp")] fresh
                  eq_refl)).
  - split.
    + intros k v [[= <- <-]|[[= <- <-]|[]]]; reflexivity.
    + intros p [[= <-]|[[= <-]|[[=]|[]]]]; discriminate.
  - discriminate.
Defined.

(* ================================================================== *)
(** ** The registry and the protocol endpoints *)

Lemma assoc_in {A} (l : list (string * A)) (k : string) :
  (exists a, assoc l k = Some a) <-> In k (map fst l).
Proof.
  induction l as [|[k' a] l IH]; simpl.
  - split; [intros [a H]; discriminate H | intros []].
  - destruct (String.eqb_spec k' k) as [->|Hne].
    + split; [now left | intros _; now exists a].
    + rewrite IH. split; [now right | intros [H|H]; [contradiction|exact H]].
Qed.

(** X6: The tools announced by the listing are exactly the names the
    registry resolves, and the plain listing endpoint and the JSON-RPC
    method [tools/list] announce the same listing, without any effect. *)
Theorem listed_tools_are_the_callable_ones (env : Env) :
  (forall name,
     In (VStr name) (listed_names (tool_listing env)) <->
     exists t, tools_get env name = Some t) /\
  (forall s, list_tools env s = (Return (tool_listing env), s)) /\
  (forall request s,
     req_method request = "tools/list" ->
     mcp_message env request s
       = (Return (rpc_result (req_id request) (tool_listing env)), s)).
Proof.
  split; [|split].
  - intros name. unfold tools_get. rewrite assoc_in.
    change (listed_names (tool_listing env))
      with (map VStr (map fst (TOOLS env))).
    rewrite in_map_iff. split.
    + intros (x & [= ->] & Hin). exact Hin.
    + intros Hin. now exists name.
  - reflexivity.
  - intros request s Hm. unfold mcp_message. rewrite Hm. reflexivity.
Qed.

Lemma tools_lookup_some env v t :
  tools_lookup env v = Return (Some t) ->
  exists name, v = VStr name /\ tools_get env name = Some t.
Proof.
  destruct v; simpl; try discriminate.
  intros [= H]. now exists s.
Qed.

Lemma tame_call_with env {F} (proj : BridgeState -> F) name t v :
  tools_get env name = Some t -> tame proj (call_with t v).
Proof.
  intros Ht. unfold call_with.
  destruct v; try apply tame_raise.
  eapply tame_registered; eassumption.
Qed.

(** X7: Every reply of the JSON-RPC endpoint carries the version ["2.0"]
    and the id of its request, and either a result and no error, or no
    result and an error of code -32601 with a message: never both, never
    neither. *)
Theorem mcp_reply_is_well_formed
  (env : Env) (request : MCPRequest) (s s' : Sys) (r : MCPResponse) :
  mcp_message env request s = (Return r, s') ->
  res_jsonrpc r = "2.0" /\
  res_id r = req_id request /\
  ((exists v, res_result r = Some v /\ res_error r = None) \/
   (exists msg,
      res_result r = None /\
      res_error r = Some [("code", VInt (-32601)); ("message", VStr msg)])).
Proof.
  unfold mcp_message.
  destruct (String.eqb (req_method request) "initialize").
  { intros [= <- <-]. repeat split. left. eexists. split; reflexivity. }
  destruct (String.eqb (req_method request) "tools/list").
  { intros [= <- <-]. repeat split. left. eexists. split; reflexivity. }
  destruct (String.eqb (req_method request) "tools/call").
  2:{ intros [= <- <-]. repeat split. right. eexists. split; reflexivity. }
  unfold bind, lift.
  destruct (params_get (req_params request) "name" VNone) as [tool_name|e];
    [|discriminate].
  destruct (params_get (req_params request) "arguments" (VDict []))
    as [tool_args|e]; [|discriminate].
  destruct (tools_lookup env tool_name) as [[t|]|e]; [| |discriminate].
  - destruct (call_with t tool_args s) as [[result|e] s1]; [|discriminate].
    intros [= <- <-]. repeat split. left. eexists. split; reflexivity.
  - intros [= <- <-]. repeat split. right. eexists. split; reflexivity.
Qed.

Lemma mcp_reply_is_well_formed_witness :
  res_jsonrpc (rpc_error (Some 7) (-32601) "Tool not found: nonexistent")
    = "2.0" /\
  res_id (rpc_error (Some 7) (-32601) "Tool not found: nonexistent")
    = Some 7 /\
  ((exists v,
      res_result (rpc_error (Some 7) (-32601) "Tool not found: nonexistent")
        = Some v /\
      res_error (rpc_error (Some 7) (-32601) "Tool not found: nonexistent")
        = None) \/
   (exists msg,
      res_result (rpc_error (Some 7) (-32601) "Tool not found: nonexistent")
        = None /\
      res_error (rpc_error (Some 7) (-32601) "Tool not found: nonexistent")
        = Some [("code", VInt (-32601)); ("message", VStr msg)])).
Proof.
  apply (mcp_reply_is_well_formed calm
           (mkMCPRequest "2.0" (Some 7) "tools/call"
              (Some [("name", VStr "nonexistent")])) fresh fresh).
  reflexivity.
Defined.

(** X8: The protocol endpoints are stateless: no JSON-RPC request and no
    direct invocation changes the bridge state, whatever the handler
    does, and [initialize] and [tools/list] have no effect at all. *)
Theorem protocol_endpoints_keep_the_bridge_state (env : Env) (s : Sys) :
  (forall request, st (snd (mcp_message env request s)) = st s) /\
  (forall call, st (snd (invoke_tool env call s)) = st s) /\
  (forall request,
     req_method request = "initialize" \/ req_method request = "tools/list" ->
     snd (mcp_message env request s) = s).
Proof.
  split; [|split].
  - intros request. unfold mcp_message.
    destruct (String.eqb (req_method request) "initialize"); [reflexivity|].
    destruct (String.eqb (req_method request) "tools/list"); [reflexivity|].
    destruct (String.eqb (req_method request) "tools/call"); [|reflexivity].
    unfold bind, lift.
    destruct (params_get (req_params request) "name" VNone) as [tool_name|e];
      [|reflexivity].
    destruct (params_get (req_params request) "arguments" (VDict []))
      as [tool_args|e]; [|reflexivity].
    destruct (tools_lookup env tool_name) as [[t|]|e] eqn:El;
      [|reflexivity|reflexivity].
    apply tools_lookup_some in El as (name & _ & Ht).
    pose proof (tame_call_with env (fun b => b) name t tool_args Ht s)
      as [Hkeep _].
    destruct (call_with t tool_args s) as [[result|e] s1]; exact Hkeep.
  - intros call. unfold invoke_tool.
    destruct (tools_get env (call_tool call)) as [t|] eqn:Ht; [|reflexivity].
    pose proof (tame_registered env (fun b => b) _ t (call_args call) Ht s)
      as [Hkeep _].
    unfold bind.
    destruct (fn t (call_args call) s) as [[result|e] s1]; exact Hkeep.
  - intros request [Hm|Hm]; unfold mcp_message; rewrite Hm; reflexivity.
Qed.

(** X9: A direct invocation of a tool that is not in the registry is
    answered with the error response 404 ["Tool not found: <tool>"] and
    has no effect. *)
Theorem invoke_tool_unknown_is_404 (env : Env) (call : ToolCall) (s : Sys) :
  ~ In (call_tool call) (map fst (TOOLS env)) ->
  respond (fst (invoke_tool env call s))
    = ErrorResponse 404 ("Tool not found: " ++ call_tool call) /\
  snd (invoke_tool env call s) = s.
Proof.
  intros Hnot. unfold invoke_tool, tools_get.
  rewrite (assoc_not_in _ _ Hnot). split; reflexivity.
Qed.

Lemma invoke_tool_unknown_is_404_witness :
  respond (fst (invoke_tool calm (mkToolCall "shell" []) fresh))
    = ErrorResponse 404 "Tool not found: shell" /\
  snd (invoke_tool calm (mkToolCall "shell" []) fresh) = fresh.
Proof.
  apply (invoke_tool_unknown_is_404 calm (mkToolCall "shell" []) fresh).
  simpl. intros [H|[H|[H|[H|[]]]]]; discriminate H.
Defined.

(* ================================================================== *)
(** ** Splitting and the authorization code *)

Lemma str_app_nil_r (s : string) : s ++ "" = s.
Proof. induction s as [|c s IH]; simpl; [reflexivity | now rewrite IH]. Qed.

Lemma str_app_assoc (a b c : string) : (a ++ b) ++ c = a ++ b ++ c.
Proof. induction a as [|x a IH]; simpl; [reflexivity | now rewrite IH]. Qed.

(** Dropping the rest of a matched separator. *)
Lemma split_go_skip (sep x r cur : string) :
  split_go sep (x ++ r) (String.length x) cur = split_go sep r O cur.
Proof.
  induction x as [|c x IH]; simpl; [reflexivity | exact IH].
Qed.

(** Reading on where no separator starts. *)
Lemma split_go_scan (sep a r cur : string) :
  starts_within sep a r = false ->
  split_go sep (a ++ r) O cur = split_go sep r O (cur ++ a).
Proof.
  revert cur. induction a as [|c a IH]; intros cur H.
  - simpl. now rewrite str_app_nil_r.
  - cbn [starts_within] in H. apply orb_false_iff in H as [Hhere Hlater].
    change (String c a ++ r) with (String c (a ++ r)) in *.
    cbn [split_go]. rewrite Hhere, (IH _ Hlater).
    rewrite str_app_assoc. reflexivity.
Qed.

(** Reaching a separator closes the segment. *)
Lemma split_go_hit (c0 : ascii) (sep' r cur : string) :
  split_go (String c0 sep') (String c0 sep' ++ r) O cur
  = cur :: split_go (String c0 sep') r O "".
Proof.
  change (String c0 sep' ++ r) with (String c0 (sep' ++ r)).
  cbn [split_go].
  change (String c0 (sep' ++ r)) with (String c0 sep' ++ r).
  rewrite starts_with_app. cbn [String.length Nat.pred].
  now rewrite split_go_skip.
Qed.

(** Without any separator the string is one segment. *)
Lemma split_go_none (sep t cur : string) :
  str_contains sep t = false -> split_go sep t O cur = [cur ++ t].
Proof.
  revert cur. induction t as [|c t IH]; intros cur H.
  - simpl. now rewrite str_app_nil_r.
  - cbn [str_contains] in H. apply orb_false_iff in H as [Hhere Hlater].
    cbn [split_go]. rewrite Hhere, (IH _ Hlater), str_app_assoc.
    reflexivity.
Qed.

Lemma starts_within_char (a : ascii) (x r : string) :
  str_contains (String a "") x = false ->
  starts_within (String a "") x r = false.
Proof.
  induction x as [|c x IH]; intros H; [reflexivity|].
  cbn [str_contains] in H. apply orb_false_iff in H as [Hhere Hlater].
  cbn [starts_within]. rewrite (IH Hlater), orb_false_r.
  simpl in *. destruct (Ascii.eqb a c); [|reflexivity].
  simpl in Hhere. destruct x; discriminate Hhere.
Qed.

(** X10: The code taken from a redirect is the value of its first [code=]
    parameter, read up to the next [&] or to the end, when no other
    [code=] follows. *)
Theorem extract_code_reads_the_code_parameter (pre code rest : string) :
  starts_within "code=" pre ("code=" ++ code ++ rest) = false ->
  str_contains "&" code = false ->
  str_contains "code=" (code ++ rest) = false ->
  rest = "" \/ starts_with "&" rest = true ->
  extract_code (pre ++ "code=" ++ code ++ rest) = Some code.
Proof.
  intros Hfirst Hamp Hlast Hrest.
  unfold extract_code. rewrite str_contains_app.
  unfold str_split.
  rewrite (split_go_scan _ _ _ _ Hfirst), split_go_hit.
  rewrite (split_go_none _ _ _ Hlast).
  cbn [nth append]. f_equal.
  destruct Hrest as [-> | Hrest].
  - rewrite str_app_nil_r, (split_go_none _ _ _ Hamp). reflexivity.
  - apply starts_with_split in Hrest as [rest' ->].
    rewrite (split_go_scan _ _ _ _ (starts_within_char _ _ _ Hamp)).
    rewrite split_go_hit. reflexivity.
Qed.

Lemma extract_code_reads_the_code_parameter_witness :
  extract_code ("http://localhost:8000/callback?" ++ "code=" ++ "abc123" ++
                "&state=wsl-local") = Some "abc123".
Proof.
  apply (extract_code_reads_the_code_parameter
           "http://localhost:8000/callback?" "abc123" "&state=wsl-local");
    try reflexivity.
  right. reflexivity.
Defined.

(* ================================================================== *)
(** ** More on the credential cache *)

(** What [get_token] returns is what it leaves in the cache. *)
Lemma get_token_returns_cached env s tok s1 :
  get_token env s = (Return tok, s1) -> token (st s1) = tok.
Proof.
  destruct (credential_cached env s) eqn:Hc.
  - rewrite (get_token_cached _ _ Hc). now intros [= <- <-].
  - unfold get_token, bind. rewrite cached_token_valid_spec, Hc.
    unfold http_send, lift, modify, datetime_now, get_state, ret, raise.
    destruct (env_http env _ (authorize_request env)) as [resp|e];
      [|discriminate].
    destruct (extract_code _) as [[|c code]|]; try discriminate.
    cbn [hist st record].
    destruct (env_http env _ (token_request env (String c code)))
      as [resp2|e]; [|discriminate].
    destruct (resp_json resp2) as [token_data|e]; [|discriminate].
    destruct (py_get token_data "access_token") as [access_token|e];
      [|discriminate].
    now intros [= <- <-].
Qed.

(** X11: Two calls in a row: when [get_token] has returned a token that is
    truthy and the clock, at the next call, is before the cached expiry,
    the next call returns the same token and only reads the clock. *)
Theorem get_token_twice_reuses
  (env : Env) (s s1 : Sys) (tok : pyval) (expiry : Z) :
  get_token env s = (Return tok, s1) ->
  py_truthy tok = true ->
  token_expiry (st s1) = Some expiry ->
  env_now env (hist s1) < expiry ->
  get_token env s1 = (Return tok, record EvNow s1).
Proof.
  intros Hfirst Htruthy Hexp Hnow.
  pose proof (get_token_returns_cached _ _ _ _ Hfirst) as Htok.
  rewrite <- Htok. apply get_token_cached.
  unfold credential_cached. rewrite Htok, Htruthy, Hexp.
  apply Z.ltb_lt in Hnow. now rewrite Hnow.
Qed.

Lemma get_token_twice_reuses_witness :
  get_token calm cached = (Return (VStr "tok-1"), record EvNow cached).
Proof.
  apply (get_token_twice_reuses calm fresh cached (VStr "tok-1")
           (2000000 + one_hour)); try reflexivity.
Defined.

(** X12: Without a code in the redirect (no [code=] in the location, or an
    empty code) [get_token] raises ["Failed to get auth code"] right after
    the authorization request: the token endpoint is not called and the
    cache is left as it was. *)
Theorem get_token_fails_without_code
  (env : Env) (s : Sys) (resp : http_response) :
  credential_cached env s = false ->
  env_http env (hist (after_check s)) (authorize_request env) = Return resp ->
  extract_code (location_of resp) = None \/
  extract_code (location_of resp) = Some "" ->
  get_token env s
    = (Raise (mkExn PlainException "Failed to get auth code"),
       record (EvHttp (authorize_request env)) (after_check s)) /\
  st (record (EvHttp (authorize_request env)) (after_check s)) = st s.
Proof.
  intros Hc Hauth Hcode. split; [|apply after_check_st].
  unfold get_token, bind. rewrite cached_token_valid_spec, Hc.
  unfold http_send. rewrite Hauth.
  fold (location_of resp). destruct Hcode as [-> | ->]; reflexivity.
Qed.

Lemma get_token_fails_without_code_witness :
  get_token denying_world fresh
    = (Raise (mkExn PlainException "Failed to get auth code"),
       record (EvHttp (authorize_request denying_world)) (after_check fresh)) /\
  st (record (EvHttp (authorize_request denying_world)) (after_check fresh))
    = st fresh.
Proof.
  apply (get_token_fails_without_code denying_world fresh
           (mkResponse 302
              (Some "http://localhost:8000/callback?error=denied")
              "" refused)).
  - reflexivity.
  - reflexivity.
  - left. reflexivity.
Defined.

(** X13: The answer of the token endpoint is not checked: when its JSON is
    an object without [access_token], whatever its status, [get_token]
    returns [None] without raising, and what it leaves in the cache is
    not valid, so that the next call asks again. *)
Theorem get_token_without_access_token
  (env : Env) (s : Sys) (resp resp2 : http_response) (c : ascii)
  (code : string) (d : pydict) :
  credential_cached env s = false ->
  env_http env (hist (after_check s)) (authorize_request env) = Return resp ->
  extract_code (location_of resp) = Some (String c code) ->
  env_http env (hist (after_check s) ++ [EvHttp (authorize_request env)])%list
    (token_request env (String c code)) = Return resp2 ->
  resp_json resp2 = Return (VDict d) ->
  dict_get d "access_token" = None ->
  exists s',
    get_token env s = (Return VNone, s') /\
    credential_cached env s' = false.
Proof.
  intros Hc Hauth Hcode Htoken Hjson Hmissing.
  unfold get_token, bind. rewrite cached_token_valid_spec, Hc.
  unfold http_send at 1. rewrite Hauth.
  fold (location_of resp). rewrite Hcode.
  unfold http_send, lift, modify, datetime_now, get_state, ret.
  cbn [hist st record]. rewrite Htoken, Hjson.
  cbn [py_get]. unfold dict_get_default. rewrite Hmissing.
  eexists. split; reflexivity.
Qed.

Lemma get_token_without_access_token_witness :
  exists s',
    get_token tokenless_world fresh = (Return VNone, s') /\
    credential_cached tokenless_world s' = false.
Proof.
  apply (get_token_without_access_token tokenless_world fresh
           redirect_with_code
           (status_reply 400 (VDict [("error", VStr "invalid_grant")]))
           "a" "bc123" [("error", VStr "invalid_grant")]);
    reflexivity.
Defined.

(* ================================================================== *)
(** ** More on dispatching *)



Lemma process_jobs_app env (a b : list pyval) (s : Sys) :
  process_jobs env (a ++ b)%list s =
  match process_jobs env a s with
  | (Return _, s1) => process_jobs env b s1
  | (Raise e, s1) => (Raise e, s1)
  end.
Proof.
  revert s. induction a as [|j a IH]; intros s.
  - reflexivity.
  - cbn [app process_jobs]. unfold bind, lift.
    destruct (HiveJob_of j) as [job|e]; [|reflexivity].
    destruct (process_job env job s) as [[[]|e] s1]; [apply IH|reflexivity].
Qed.

(** X15: The jobs of a batch are dispatched one after the other, in the
    order received, and an entry that is not a valid job ends the batch:
    the entries before it have been processed, the entry raises, and the
    entries after it are never dispatched. *)
Theorem malformed_job_ends_the_batch
  (env : Env) (before after : list pyval) (j : pyval) (e : exn) (s s1 : Sys) :
  process_jobs env before s = (Return tt, s1) ->
  HiveJob_of j = Raise e ->
  process_jobs env (before ++ j :: after)%list s = (Raise e, s1).
Proof.
  intros Hbefore Hbad. rewrite process_jobs_app, Hbefore.
  cbn [process_jobs]. unfold bind, lift. now rewrite Hbad.
Qed.

Lemma malformed_job_ends_the_batch_witness :
  process_jobs calm
    ([] ++ VStr "not a job" ::
     [VDict [("job_id", VStr "job-1"); ("tool", VStr "local_exec");
             ("args", VDict [("command", VStr "echo hi")])]])%list fresh
  = (Raise (mkExn TypeError
              "main.HiveJob() argument after ** must be a mapping, not str"),
     fresh).
Proof.
  apply (malformed_job_ends_the_batch calm [] _ (VStr "not a job")); reflexivity.
Defined.

Lemma process_job_counts env job s :
  jobs_processed (st s) <= jobs_processed (st (snd (process_job env job s)))
  <= jobs_processed (st s) + 1.
Proof.
  rewrite process_job_steps.
  pose proof (tame_run_tool env jobs_processed job
                (record (processing_banner job) s)) as [Hrun _].
  destruct (run_tool env job (record (processing_banner job) s))
    as [[result|e] s1]; cbn in Hrun |- *; [|lia].
  pose proof (tame_get_token env jobs_processed
                (fun _ _ => eq_refl) (fun _ _ => eq_refl) s1) as [Htok _].
  unfold try_except, report_result, bind.
  destruct (get_token env s1) as [[tok|e] s2]; cbn in Htok |- *; [|lia].
  unfold http_send.
  destruct (env_http env (hist s2) _) as [resp|e]; cbn; lia.
Qed.

Lemma process_jobs_counts env (jobs : list pyval) (s : Sys) :
  jobs_processed (st s)
  <= jobs_processed (st (snd (process_jobs env jobs s)))
  <= jobs_processed (st s) + Z.of_nat (List.length jobs).
Proof.
  revert s. induction jobs as [|j jobs IH]; intros s.
  - cbn. lia.
  - cbn [process_jobs]. unfold bind, lift.
    destruct (HiveJob_of j) as [job|e]; [|cbn [snd List.length]; lia].
    pose proof (process_job_counts env job s) as Hone.
    destruct (process_job env job s) as [[[]|e] s1]; cbn [snd] in Hone |- *.
    + specialize (IH s1). cbn [List.length]. lia.
    + cbn [List.length]. lia.
Qed.

(** X16: The counter of processed jobs never goes down while a job or a
    batch is dispatched; one job raises it by at most one, a batch by at
    most the number of its entries. *)
Theorem batch_counts_at_most_its_jobs (env : Env) (jobs : list pyval) (s : Sys) :
  (forall job,
     jobs_processed (st s)
     <= jobs_processed (st (snd (process_job env job s)))
     <= jobs_processed (st s) + 1) /\
  jobs_processed (st s)
  <= jobs_processed (st (snd (process_jobs env jobs s)))
  <= jobs_processed (st s) + Z.of_nat (List.length jobs).
Proof.
  split; [intros job; apply process_job_counts | apply process_jobs_counts].
Qed.

(* ================================================================== *)
(** ** More on the poll loop and on registration *)

Section PollFrames.

Variable env : Env.
Context {F : Type} (proj : BridgeState -> F).
Hypothesis proj_set_token : forall v b, proj (set_token v b) = proj b.
Hypothesis proj_set_token_expiry :
  forall t b, proj (set_token_expiry t b) = proj b.
Hypothesis proj_incr_jobs_processed :
  forall b, proj (incr_jobs_processed b) = proj b.
Hypothesis proj_set_last_sync : forall t b, proj (set_last_sync t b) = proj b.

Lemma poll_iteration_keeps s :
  proj (st (snd (poll_iteration env s))) = proj (st s).
Proof.
  rewrite poll_iteration_st.
  assert (H : tame proj (poll_once env)).
  { unfold poll_once. tame_tac;
      first [ apply tame_get_token; assumption
            | apply tame_process_jobs; assumption
            | apply tame_modify; auto ]. }
  apply H.
Qed.

Lemma poll_for_work_keeps turns s :
  proj (st (snd (poll_for_work env turns s))) = proj (st s).
Proof.
  revert s. induction turns as [|n IH]; intros s; [reflexivity|].
  cbn [poll_for_work]. unfold bind at 1, get_state at 1.
  destruct (bridge_active (st s)); [|reflexivity].
  unfold bind at 1.
  pose proof (poll_iteration_keeps s) as Hit.
  destruct (poll_iteration_total env s) as (s1 & body & Hrun & _).
  rewrite Hrun in *. cbn [snd] in Hit. rewrite IH. exact Hit.
Qed.

End PollFrames.

Lemma poll_iteration_counts env s :
  jobs_processed (st s) <= jobs_processed (st (snd (poll_iteration env s))).
Proof.
  rewrite poll_iteration_st, poll_once_split. unfold poll_fetch, bind.
  pose proof (tame_get_token env jobs_processed
                (fun _ _ => eq_refl) (fun _ _ => eq_refl) s) as [Htok _].
  destruct (get_token env s) as [[tok|e] s1]; cbn in Htok |- *; [|lia].
  unfold http_send.
  destruct (env_http env (hist s1) _) as [resp|e]; cbn; [|lia].
  destruct (status_code resp =? 200); [|cbn; lia].
  unfold lift.
  destruct (resp_json resp) as [jobs|e]; [|cbn; lia].
  destruct (py_iter jobs) as [items|e]; [|cbn; lia].
  pose proof (process_jobs_counts env items
                (record (EvHttp (pending_request env tok)) s1)) as Hb.
  destruct (process_jobs env items _) as [[[]|e] s2]; cbn in Hb |- *; lia.
Qed.

(** X17: Across any number of turns of the poll loop the counter of
    processed jobs never goes down, and the flags [registered] and
    [bridge_active] stay as they were: the loop neither registers nor
    unregisters the node, and never stops itself. *)
Theorem poll_loop_invariants (env : Env) (turns : nat) (s : Sys) :
  jobs_processed (st s)
    <= jobs_processed (st (snd (poll_for_work env turns s))) /\
  registered (st (snd (poll_for_work env turns s))) = registered (st s) /\
  bridge_active (st (snd (poll_for_work env turns s))) = bridge_active (st s).
Proof.
  split; [|split; apply poll_for_work_keeps; reflexivity].
  revert s. induction turns as [|n IH]; intros s; [cbn; lia|].
  cbn [poll_for_work]. unfold bind at 1, get_state at 1.
  destruct (bridge_active (st s)); [|cbn; lia].
  unfold bind at 1.
  pose proof (poll_iteration_counts env s) as Hit.
  destruct (poll_iteration_total env s) as (s1 & body & Hrun & _).
  rewrite Hrun in *. cbn [snd] in Hit. specialize (IH s1). lia.
Qed.



(** X19: [register_node] touches nothing but the credential cache and the
    flag [registered], and it never clears that flag: a registration that
    fails after one that succeeded leaves the node registered. *)
Theorem register_node_never_unregisters (env : Env) (s : Sys) :
  jobs_processed (st (snd (register_node env s))) = jobs_processed (st s) /\
  last_sync (st (snd (register_node env s))) = last_sync (st s) /\
  bridge_active (st (snd (register_node env s))) = bridge_active (st s) /\
  (registered (st s) = true ->
   registered (st (snd (register_node env s))) = true).
Proof.
  assert (Hrest : tame (fun b => (jobs_processed b, last_sync b, bridge_active b))
                    (register_node env)).
  { unfold register_node. tame_tac;
      first [ apply tame_get_token; reflexivity
            | apply tame_modify; reflexivity ]. }
  destruct (Hrest s) as [Hkeep _]. injection Hkeep as H1 H2 H3.
  repeat split; try assumption.
  intros Hreg.
  pose proof (tame_get_token env registered
                (fun _ _ => eq_refl) (fun _ _ => eq_refl) s) as [Htok _].
  unfold register_node, try_except, bind.
  destruct (get_token env s) as [[tok|e] s1]; cbn in Htok |- *;
    [|congruence].
  unfold http_send.
  destruct (env_http env (hist s1) _) as [resp|e]; [|cbn; congruence].
  destruct (status_code resp =? 200); cbn; congruence.
Qed.

Lemma register_node_never_unregisters_witness :
  registered
    (st (snd (register_node unreachable_world
                (snd (register_node calm fresh))))) = true.
Proof.
  apply (register_node_never_unregisters unreachable_world
           (snd (register_node calm fresh))).
  reflexivity.
Defined.

(* ================================================================== *)
(** ** Speech generation *)

(** X20: [tool_bark_tts] first checks that the package is there: when the
    check does not print [ok] it answers ["Bark not installed"] and the
    generation is not started.  When the check passes, the generation is
    started once and the handler answers [generated] with a path named
    after the clock, whatever the generation printed and whatever its exit
    code was. *)
Theorem bark_tts_checks_only_the_installation
  (env : Env) (text voice : pyval) (s : Sys) (r : proc_result) :
  env_run env (hist s) ["python"; "-c"; "import bark; print('ok')"] = Return r ->
  let checked := record (EvRun ["python"; "-c"; "import bark; print('ok')"]) s in
  let path := "/tmp/bark_" ++ strftime env (env_now env (hist checked)) ++ ".wav" in
  let generate := ["python"; "-c"; bark_script env text voice path] in
  (str_contains "ok" (stdout r) = false ->
   tool_bark_tts env text voice s
     = (Return (VDict [("error", VStr "Bark not installed");
                       ("hint", VStr "pip install bark")]), checked)) /\
  (str_contains "ok" (stdout r) = true ->
   forall r2,
     env_run env (hist (record EvNow checked)) generate = Return r2 ->
     tool_bark_tts env text voice s
       = (Return (VDict [("audio_path", VStr path);
                         ("status", VStr "generated")]),
          record (EvRun generate) (record EvNow checked))).
Proof.
  intros Hcheck checked path generate.
  unfold tool_bark_tts, try_except, bind, subprocess_run. rewrite Hcheck.
  split; intros Hok.
  - rewrite Hok. reflexivity.
  - intros r2 Hgen. rewrite Hok. cbn [negb].
    unfold datetime_now. fold checked. cbn [hist record st].
    fold path. fold generate.
    change (hist checked ++ [EvNow])%list with (hist (record EvNow checked)).
    rewrite Hgen. reflexivity.
Qed.

Lemma bark_tts_checks_only_the_installation_witness :
  tool_bark_tts chatty_world (VStr "hello") (VStr "v2/en_speaker_6") fresh
  = (Return (VDict [("audio_path", VStr "/tmp/bark_1000000.wav");
                    ("status", VStr "generated")]),
     record (EvRun ["python"; "-c";
                    bark_script chatty_world (VStr "hello")
                      (VStr "v2/en_speaker_6") "/tmp/bark_1000000.wav"])
       (record EvNow
          (record (EvRun ["python"; "-c"; "import bark; print('ok')"]) fresh))).
Proof.
  apply (proj2 (bark_tts_checks_only_the_installation chatty_world
                  (VStr "hello") (VStr "v2/en_speaker_6") fresh
                  (mkProc "ok" "" 0) eq_refl) eq_refl (mkProc "ok" "" 0)).
  reflexivity.
Defined.
